(** * mobile_cv.torch.utils_pytorch.distributed_helper

    A shallow embedding of [distributed_helper.py]: the rank record
    [DistributedParams], the two generator-based context managers that open
    and close the global and the per-machine process groups, the
    return-value decorator, the default worker, the spawn helper and
    [launch].

    Python integers are unbounded, so ranks and sizes are [Z].  Exceptions
    are values of [exn]; a computation that touches the process state is a
    function [World -> result A * World]. *)

From Stdlib Require Import ZArith String Ascii List Lia.
From stdpp Require Import base option list list_numbers gmap strings pretty.

Open Scope Z_scope.

(** ** Exceptions and results *)

(** The exception classes the module can raise by itself, and [UserError]
    for anything raised by the user function or by a collaborator. *)
Inductive exn : Type :=
| ValueError
| AssertionError
| ZeroDivisionError
| UnboundLocalError
| IndexError
| KeyError
| AttributeError
| FileNotFoundError
| UserError (code : nat).

Inductive result (A : Type) : Type :=
| Ok (a : A)
| Raise (e : exn).
Arguments Ok {A} a.
Arguments Raise {A} e.

Definition result_bind {A B} (r : result A) (k : A -> result B) : result B :=
  match r with
  | Ok a => k a
  | Raise e => Raise e
  end.

Definition is_raise {A} (r : result A) : bool :=
  match r with Ok _ => false | Raise _ => true end.

(** ** Python built-ins used by the module *)

(** [range(a, b)] as a list. *)
Definition py_range (a b : Z) : list Z := seqZ a (b - a).

(** [a // b]: floor division, [ZeroDivisionError] for a zero divisor.
    [Z.div] rounds towards minus infinity like Python. *)
Definition py_floordiv (a b : Z) : result Z :=
  if b =? 0 then Raise ZeroDivisionError else Ok (a / b).

(** [s.lower()] on ASCII strings. *)
Definition lower_ascii (c : ascii) : ascii :=
  let n := nat_of_ascii c in
  if ((65 <=? n)%nat && (n <=? 90)%nat)%bool then ascii_of_nat (n + 32) else c.

Fixpoint lower (s : string) : string :=
  match s with
  | EmptyString => EmptyString
  | String c rest => String (lower_ascii c) (lower rest)
  end.

(** [s.startswith(p)] *)
Definition startswith (s p : string) : bool := String.prefix p s.

(** [x in l] for a list of strings. *)
Definition str_in (x : string) (l : list string) : bool :=
  existsb (String.eqb x) l.

(** ** DistributedParams *)

Module DistributedParams.

(** store information about ranks and sizes *)
Record t : Type := Make {
  local_rank : Z;
  global_rank : Z;
  machine_rank : Z;
  num_processes_per_machine : Z;
  world_size : Z
}.

(** [validate]: assume same number of processes per machine. *)
Definition validate (self : t) : result unit :=
  if negb (global_rank self
           =? machine_rank self * num_processes_per_machine self + local_rank self)
  then Raise ValueError
  else Ok tt.

(** [__init__]: stores the five arguments, then validates.  An object
    exists only when [__init__] returns. *)
Definition init (local_rank global_rank machine_rank
                 num_processes_per_machine world_size : Z) : result t :=
  let self := Make local_rank global_rank machine_rank
                   num_processes_per_machine world_size in
  result_bind (validate self) (fun _ => Ok self).

End DistributedParams.

Abbreviation DistributedParams := DistributedParams.t.

(** ** The process state

    [timedelta] is a duration in seconds. *)
Definition timedelta : Type := Z.

Definition DEFAULT_TIMEOUT : timedelta := 30 * 60.

(** A handle returned by [dist.new_group].  The default (global) group has
    no handle of its own: [dist.destroy_process_group()] is called without
    an argument. *)
Inductive ProcessGroup : Type :=
| Group (id : nat).

Global Instance ProcessGroup_eq_dec : EqDecision ProcessGroup.
Proof. solve_decision. Defined.

(** [pet.LaunchConfig] *)
Record LaunchConfig : Type := {
  min_nodes : Z;
  max_nodes : Z;
  nproc_per_node : Z;
  rdzv_backend : string;
  run_id : string;
  max_restarts : Z;
  start_method : string
}.

(** What the module does to its collaborators, in program order: every call
    of a [torch.distributed] primitive, of [comm.synchronize], of
    [torch.cuda.set_device], of the two process launchers, and every
    assignment to the module attribute [comm._LOCAL_PROCESS_GROUP].  A
    [dist.new_group] call is recorded with the handle it returned. *)
Inductive Event : Type :=
| EvInitProcessGroup (backend : string) (init_method : option string)
                     (world_size rank : Z) (timeout : timedelta)
| EvCudaSetDevice (device : Z)
| EvSynchronize
| EvNewGroup (ranks : list Z) (handle : ProcessGroup)
| EvDestroyProcessGroup (group : option ProcessGroup)
| EvSetLocalProcessGroup (value : option ProcessGroup)
| EvSpawn (nprocs : Z)
| EvElasticLaunch (lc : LaunchConfig).

Section WithValues.

(** The values user functions return and [torch.save] stores. *)
Context {Val : Type}.

(** One process: the module attribute [comm._LOCAL_PROCESS_GROUP], the log
    of collaborator calls (oldest first), the number of groups created so
    far (handles are fresh), the files written by [torch.save], the
    environment variables, the number of CUDA devices, the rendering of
    [time.time()], and the exception [dist.init_process_group] raises, if
    it is going to fail. *)
Record World : Type := {
  LOCAL_PROCESS_GROUP : option ProcessGroup;
  trace : list Event;
  next_group : nat;
  files : gmap string Val;
  environ : gmap string string;
  cuda_device_count : Z;
  clock : string;
  init_fault : option exn
}.

(** A computation of the module: it returns or raises, and leaves a
    process state behind either way. *)
Definition M (A : Type) : Type := World -> result A * World.

Definition ret {A} (a : A) : M A := fun w => (Ok a, w).

Definition raise {A} (e : exn) : M A := fun w => (Raise e, w).

Definition bind {A B} (m : M A) (k : A -> M B) : M B :=
  fun w =>
    match m w with
    | (Ok a, w') => k a w'
    | (Raise e, w') => (Raise e, w')
    end.

Definition lift {A} (r : result A) : M A := fun w => (r, w).

#[local] Instance M_ret : MRet M := @ret.
#[local] Instance M_bind : MBind M := fun A B k m => bind m k.

(** ** Collaborators

    Each primitive appends the call to the trace.  Logging calls
    ([logger.info], [logger.warning], [logger.error]) are not modelled.
    Apart from [dist.init_process_group], whose failure the module handles
    itself, the primitives are taken to succeed. *)

Definition gets {A} (f : World -> A) : M A :=
  fun w => (Ok (f w), w).

Definition modify (f : World -> World) : M unit :=
  fun w => (Ok tt, f w).

Definition log (ev : Event) : M unit :=
  modify (fun w =>
     {| LOCAL_PROCESS_GROUP := LOCAL_PROCESS_GROUP w;
        trace := trace w ++ [ev];
        next_group := next_group w;
        files := files w;
        environ := environ w;
        cuda_device_count := cuda_device_count w;
        clock := clock w;
        init_fault := init_fault w |}).

(** [dist.init_process_group(backend=.., init_method=.., world_size=..,
    rank=.., timeout=..)] *)
Definition dist_init_process_group (backend : string) (init_method : option string)
    (world_size rank : Z) (timeout : timedelta) : M unit :=
  log (EvInitProcessGroup backend init_method world_size rank timeout);;
  fault ← gets init_fault;
  match fault with
  | Some e => raise e
  | None => ret tt
  end.

(** [torch.cuda.set_device(device)] *)
Definition torch_cuda_set_device (device : Z) : M unit :=
  log (EvCudaSetDevice device).

(** Modelled from the spec: [comm.synchronize] is defined in
    [mobile_cv/torch/utils_pytorch/comm.py], which is not part of the
    sources at hand; the specification describes the call as a barrier over
    the whole group. *)
Definition comm_synchronize : M unit :=
  log EvSynchronize.

(** [dist.new_group(ranks)]: the handle is fresh. *)
Definition dist_new_group (ranks : list Z) : M ProcessGroup :=
  id ← gets next_group;
  log (EvNewGroup ranks (Group id));;
  modify (fun w =>
     {| LOCAL_PROCESS_GROUP := LOCAL_PROCESS_GROUP w;
        trace := trace w;
        next_group := S (next_group w);
        files := files w;
        environ := environ w;
        cuda_device_count := cuda_device_count w;
        clock := clock w;
        init_fault := init_fault w |});;
  ret (Group id).

(** [dist.destroy_process_group(group)]; [None] is the call without an
    argument, which destroys the default group. *)
Definition dist_destroy_process_group (group : option ProcessGroup) : M unit :=
  log (EvDestroyProcessGroup group).

(** Reading and assigning [comm._LOCAL_PROCESS_GROUP]. *)
Definition get_LOCAL_PROCESS_GROUP : M (option ProcessGroup) :=
  gets LOCAL_PROCESS_GROUP.

Definition set_LOCAL_PROCESS_GROUP (value : option ProcessGroup) : M unit :=
  log (EvSetLocalProcessGroup value);;
  modify (fun w =>
     {| LOCAL_PROCESS_GROUP := value;
        trace := trace w;
        next_group := next_group w;
        files := files w;
        environ := environ w;
        cuda_device_count := cuda_device_count w;
        clock := clock w;
        init_fault := init_fault w |}).

(** [torch.save(obj, filename)] and [torch.load(filename)] *)
Definition torch_save (obj : Val) (filename : string) : M unit :=
  modify (fun w =>
     {| LOCAL_PROCESS_GROUP := LOCAL_PROCESS_GROUP w;
        trace := trace w;
        next_group := next_group w;
        files := <[filename := obj]> (files w);
        environ := environ w;
        cuda_device_count := cuda_device_count w;
        clock := clock w;
        init_fault := init_fault w |}).

Definition torch_load (filename : string) : M Val :=
  fs ← gets files;
  match fs !! filename with
  | Some obj => ret obj
  | None => raise FileNotFoundError
  end.

(** [assert cond] *)
Definition assert (cond : bool) : M unit :=
  if cond then ret tt else raise AssertionError.

(** ** Context managers

    A function decorated with [contextlib.contextmanager] whose generator
    has one [yield] and no [try] around it.  [enter] is the code up to the
    [yield]: it returns the generator's local variables that the rest
    needs, with the yielded value.  [exit] is the code after the [yield]. *)
Record ContextManager (G Y : Type) : Type := {
  enter : M (G * Y);
  exit : G -> M unit
}.
Arguments enter {G Y} _.
Arguments exit {G Y} _ _.

(** [with cm as y: body].  When the body raises, the exception is thrown
    into the generator at its [yield]; nothing catches it there, so the
    code after the [yield] is skipped and the exception leaves the [with]
    statement.  When the body returns, the generator is resumed; an
    exception raised by the code after the [yield] replaces the value. *)
Definition with_ {G Y B} (cm : ContextManager G Y) (body : Y -> M B) : M B :=
  gy ← enter cm;
  v ← body gy.2;
  exit cm gy.1;;
  ret v.

(** The loop of [_enable_local_process_group] over the machine indices
    still to visit; [pg] is the loop's variable of that name, [None] while
    it is unbound. *)
Fixpoint new_local_groups (dist_params : DistributedParams) (machines : list Z)
    (pg : option ProcessGroup) : M (option ProcessGroup) :=
  match machines with
  | [] => ret pg
  | i :: rest =>
      let ranks_on_i :=
        py_range (i * DistributedParams.num_processes_per_machine dist_params)
                 ((i + 1) * DistributedParams.num_processes_per_machine dist_params) in
      g ← dist_new_group ranks_on_i;
      (if i =? DistributedParams.machine_rank dist_params
       then set_LOCAL_PROCESS_GROUP (Some g)
       else ret tt);;
      new_local_groups dist_params rest (Some g)
  end.

(** Setup the local process group (which contains ranks within the same
    machine). *)
Definition _enable_local_process_group (dist_params : DistributedParams)
    : ContextManager (option ProcessGroup) unit :=
  {| enter :=
       slot ← get_LOCAL_PROCESS_GROUP;
       assert (bool_decide (slot = None));;
       num_machines ← lift (py_floordiv
                              (DistributedParams.world_size dist_params)
                              (DistributedParams.num_processes_per_machine dist_params));
       pg ← new_local_groups dist_params (py_range 0 num_machines) None;
       comm_synchronize;;
       ret (pg, tt);
     exit pg :=
       match pg with
       | Some g => dist_destroy_process_group (Some g)
       | None => raise UnboundLocalError
       end;;
       set_LOCAL_PROCESS_GROUP None |}.

(** ** Dynamically typed arguments

    [launch] hands the worker its fifth to seventh arguments by position,
    so what arrives as [dist_params] or [return_save_file] need not have
    the annotated type.  These are the objects that can arrive there. *)
Inductive pyobj : Type :=
| PyNone
| PyStr (s : string)
| PyTimedelta (t : timedelta)
| PyParams (p : DistributedParams).

(** Truth value of an object, as [or] tests it. *)
Definition truthy (o : pyobj) : bool :=
  match o with
  | PyNone => false
  | PyStr s => negb (String.eqb s "")
  | PyTimedelta t => negb (t =? 0)
  | PyParams _ => true
  end.

(** Reading one of the five rank attributes of an object: only a
    [DistributedParams] has them. *)
Definition params_of (o : pyobj) : result DistributedParams :=
  match o with
  | PyParams p => Ok p
  | _ => Raise AttributeError
  end.

(** [o is None] *)
Definition is_None (o : pyobj) : bool :=
  match o with
  | PyNone => true
  | _ => false
  end.

Definition of_optional_str (o : option string) : pyobj :=
  match o with
  | Some s => PyStr s
  | None => PyNone
  end.

(** ** enable_dist_process_groups *)

Definition enable_dist_process_groups (backend : string) (init_method : option string)
    (dist_params : pyobj) (timeout : timedelta)
    : ContextManager (DistributedParams * option ProcessGroup) unit :=
  {| enter :=
       assert (str_in (lower backend) ["nccl"; "gloo"]);;
       p ← lift (params_of dist_params);
       dist_init_process_group backend init_method
         (DistributedParams.world_size p) (DistributedParams.global_rank p) timeout;;
       (if str_in (lower backend) ["nccl"]
        then torch_cuda_set_device (DistributedParams.local_rank p)
        else ret tt);;
       (* synchronize is needed here to prevent a possible timeout after
          calling init_process_group *)
       comm_synchronize;;
       inner ← enter (_enable_local_process_group p);
       ret ((p, inner.1), tt);
     exit frame :=
       exit (_enable_local_process_group frame.1) frame.2;;
       dist_destroy_process_group None |}.

(** ** User functions

    A callable with the two attributes the module reads.  [args] is the
    tuple of positional arguments, [kwargs] the dictionary of keyword
    arguments. *)
Definition Args : Type := list Val.
Definition Kwargs : Type := gmap string Val.

Record Callable : Type := {
  __module__ : string;
  __name__ : string;
  call : Args -> Kwargs -> M Val
}.

(** ** Built-ins and collaborators the module only calls

    [int(s)] for a string ([None] where Python raises [ValueError]),
    [hash(s)], [str(o)] for the objects that are not strings, the name
    [tempfile.NamedTemporaryFile(prefix, suffix)] picks, and the two
    process launchers: [mp.spawn(fn, nprocs)] runs [fn i] in [nprocs]
    child processes and returns when all have exited;
    [pet.elastic_launch(lc, entrypoint)] applied to the worker's arguments
    runs the entry point in
    the workers it starts and returns their results by rank. *)
Class Runtime : Type := {
  py_int : string -> option Z;
  py_hash : string -> Z;
  str_timedelta : timedelta -> string;
  str_params : DistributedParams -> string;
  temporary_file_name : string -> string -> string;
  run_spawn : (Z -> M Val) -> Z -> M unit;
  run_elastic : LaunchConfig -> M Val -> M (gmap Z Val)
}.

Context {runtime : Runtime}.

(** [str(o)], as an f-string renders [o]. *)
Definition py_str (o : pyobj) : string :=
  match o with
  | PyNone => "None"
  | PyStr s => s
  | PyTimedelta t => str_timedelta t
  | PyParams p => str_params p
  end.

Definition mp_spawn (fn : Z -> M Val) (nprocs : Z) : M unit :=
  log (EvSpawn nprocs);;
  run_spawn fn nprocs.

Definition pet_elastic_launch (lc : LaunchConfig) (entrypoint : M Val)
    : M (gmap Z Val) :=
  log (EvElasticLaunch lc);;
  run_elastic lc entrypoint.

(** ** save_return_deco *)

(** warp a function to save its return to the filename *)
Definition save_return_deco (return_save_file : pyobj) (rank : Z)
    (func : Callable) : Callable :=
  {| __module__ := __module__ func;
     __name__ := __name__ func;
     call args kwargs :=
       r ← call func args kwargs;
       (if negb (is_None return_save_file)
        then
          let filename := py_str return_save_file +:+ ".rank" +:+ pretty rank in
          torch_save r filename
        else ret tt);;
       ret r |}.

(** ** DistributedParams.from_environ *)

(** [int(_get_key(key, default))]: the variable's text parsed as an
    integer, or the default when the variable is not set. *)
Definition _get_key (key : string) (default : Z) : M Z :=
  env ← gets environ;
  match env !! key with
  | Some s =>
      match py_int s with
      | Some z => ret z
      | None => raise ValueError
      end
  | None => ret default
  end.

Definition from_environ : M DistributedParams :=
  local_rank ← _get_key "LOCAL_RANK" 0;
  global_rank ← _get_key "RANK" 0;
  machine_rank ← _get_key "GROUP_RANK" 0;
  num_processes_per_machine ← _get_key "LOCAL_WORLD_SIZE" 1;
  world_size ← _get_key "WORLD_SIZE" 1;
  lift (DistributedParams.init local_rank global_rank machine_rank
          num_processes_per_machine world_size).

(** ** default_distributed_worker

    [timeout] is [None] when the caller leaves it out. *)
Definition Worker : Type :=
  Callable -> Args -> Kwargs -> string -> option string -> pyobj -> pyobj ->
  option timedelta -> M Val.

Definition default_distributed_worker : Worker :=
  fun main_func args kwargs backend dist_url dist_params return_save_file timeout =>
    let timeout := default DEFAULT_TIMEOUT timeout in
    dist_params ← (if truthy dist_params then ret dist_params
                   else p ← from_environ; ret (PyParams p));
    with_ (enable_dist_process_groups backend dist_url dist_params timeout)
      (fun _ =>
         p ← lift (params_of dist_params);
         let deco := save_return_deco return_save_file (DistributedParams.global_rank p) in
         call (deco main_func) args kwargs).

(** ** _mp_spawn_helper

    [local_rank] comes first: [mp.spawn] supplies it. *)
Definition _mp_spawn_helper (local_rank : Z) (distributed_worker : Worker)
    (main_func : Callable) (args : Args) (kwargs : Kwargs) (backend : string)
    (dist_url : option string) (return_save_file : option string)
    (timeout : timedelta) (world_size num_processes_per_machine machine_rank : Z)
    : M Val :=
  let global_rank := machine_rank * num_processes_per_machine + local_rank in
  dist_params ← lift (DistributedParams.init local_rank global_rank machine_rank
                        num_processes_per_machine world_size);
  distributed_worker main_func args kwargs backend dist_url
    (PyParams dist_params) (of_optional_str return_save_file) (Some timeout).

(** ** launch *)

(** [range(start, stop)[0]] *)
Definition range_first (start stop : Z) : result Z :=
  if start <? stop then Ok start else Raise IndexError.

(** Run the [main_func] using multiple processes/nodes:
    [main_func( *args, **kwargs)]. *)
Definition launch (main_func : Callable) (num_processes_per_machine : Z)
    (num_machines machine_rank : Z) (dist_url : option string) (backend : string)
    (always_spawn : bool) (launch_method : string) (timeout : timedelta)
    (args : Args) (kwargs : option Kwargs) (_distributed_worker : Worker) : M Val :=
  let kwargs := default ∅ kwargs in
  dist_url ← match dist_url with
             | Some url => ret url
             | None => now ← gets clock; ret ("file:///tmp/mcvdh_dist_file_" +:+ now)
             end;
  (if String.eqb backend "NCCL"
   then devices ← gets cuda_device_count;
        assert (num_processes_per_machine <=? devices)
   else ret tt);;
  let local_ranks_start := num_processes_per_machine * machine_rank in
  let local_ranks_stop := num_processes_per_machine * (machine_rank + 1) in
  let world_size := num_machines * num_processes_per_machine in
  if (1 <? world_size) || always_spawn then
    if negb (str_in launch_method ["multiprocessing"; "elastic"]) then
      raise ValueError
    else if String.eqb launch_method "elastic" then
      let lc :=
        {| min_nodes := num_machines;
           max_nodes := num_machines;
           nproc_per_node := num_processes_per_machine;
           rdzv_backend := "zeus";
           (* run_id just has to be globally unique *)
           run_id := pretty (py_hash dist_url);
           (* for fault tolerance; set it to 0 for single-node *)
           max_restarts := if 1 <? num_machines then 3 else 0;
           start_method := "spawn" |} in
      results ← pet_elastic_launch lc
                  (_distributed_worker main_func args kwargs backend
                     None PyNone (PyTimedelta timeout) None);
      first ← lift (range_first local_ranks_start local_ranks_stop);
      match results !! first with
      | Some r => ret r
      | None => raise KeyError
      end
    else
      let prefix :=
        "mcvdh_" +:+ __module__ main_func +:+ "." +:+ __name__ main_func +:+ "_return" in
      let return_file := temporary_file_name prefix ".pth" in
      if startswith dist_url "env://" then
        _distributed_worker main_func args kwargs backend
          (Some dist_url) (PyStr return_file) (PyTimedelta timeout) None
      else
        mp_spawn
          (fun local_rank =>
             _mp_spawn_helper local_rank _distributed_worker main_func args kwargs
               backend (Some dist_url) (Some return_file) timeout
               world_size num_processes_per_machine machine_rank)
          num_processes_per_machine;;
        first ← lift (range_first local_ranks_start local_ranks_stop);
        torch_load (return_file +:+ ".rank" +:+ pretty first)
  else
    call main_func args kwargs.

(** ** Reading a trace *)

(** The rank lists passed to [dist.new_group], in call order. *)
Definition new_group_calls (tr : list Event) : list (list Z) :=
  omap (fun ev => match ev with EvNewGroup ranks _ => Some ranks | _ => None end) tr.

(** The handles [dist.new_group] returned, in call order. *)
Definition new_group_handles (tr : list Event) : list ProcessGroup :=
  omap (fun ev => match ev with EvNewGroup _ g => Some g | _ => None end) tr.

(** The arguments of the [destroy_process_group] calls, in call order. *)
Definition destroy_calls (tr : list Event) : list (option ProcessGroup) :=
  omap (fun ev => match ev with EvDestroyProcessGroup g => Some g | _ => None end) tr.

(** The values assigned to [comm._LOCAL_PROCESS_GROUP], in order. *)
Definition slot_assignments (tr : list Event) : list (option ProcessGroup) :=
  omap (fun ev => match ev with EvSetLocalProcessGroup v => Some v | _ => None end) tr.

(** The calls that start processes. *)
Definition launcher_calls (tr : list Event) : list Event :=
  omap (fun ev => match ev with
                  | EvSpawn _ | EvElasticLaunch _ => Some ev
                  | _ => None
                  end) tr.

(** The loop of [_enable_local_process_group] in closed form: the events
    it appends when the next fresh handle is [Group g0], the value it
    leaves in [comm._LOCAL_PROCESS_GROUP], and its variable [pg]. *)
Fixpoint loop_events (k mr : Z) (g0 : nat) (machines : list Z) : list Event :=
  match machines with
  | [] => []
  | i :: rest =>
      EvNewGroup (py_range (i * k) ((i + 1) * k)) (Group g0)
      :: (if i =? mr then [EvSetLocalProcessGroup (Some (Group g0))] else [])
      ++ loop_events k mr (S g0) rest
  end.

Fixpoint loop_slot (mr : Z) (g0 : nat) (machines : list Z)
    (slot : option ProcessGroup) : option ProcessGroup :=
  match machines with
  | [] => slot
  | i :: rest => loop_slot mr (S g0) rest (if i =? mr then Some (Group g0) else slot)
  end.

Fixpoint loop_pg (g0 : nat) (machines : list Z)
    (pg : option ProcessGroup) : option ProcessGroup :=
  match machines with
  | [] => pg
  | _ :: rest => loop_pg (S g0) rest (Some (Group g0))
  end.

(** Whether the device check at the start of [launch] fails: the backend
    is ["NCCL"] and there are fewer devices than processes per machine. *)
Definition device_check_fails (backend : string) (num_processes_per_machine : Z)
    (w : World) : bool :=
  String.eqb backend "NCCL" && negb (num_processes_per_machine <=? cuda_device_count w).

(** The rendezvous address [launch] works with: the one given, or the
    generated file address. *)
Definition launch_dist_url (dist_url : option string) (w : World) : string :=
  match dist_url with
  | Some url => url
  | None => "file:///tmp/mcvdh_dist_file_" +:+ clock w
  end.

(** The name of the temporary file [launch] hands to the spawned workers. *)
Definition launch_return_file (main_func : Callable) : string :=
  temporary_file_name
    ("mcvdh_" +:+ __module__ main_func +:+ "." +:+ __name__ main_func +:+ "_return")
    ".pth".

(** The [pet.LaunchConfig] built by [launch]. *)
Definition launch_config (num_machines num_processes_per_machine : Z) (url : string)
    : LaunchConfig :=
  {| min_nodes := num_machines;
     max_nodes := num_machines;
     nproc_per_node := num_processes_per_machine;
     rdzv_backend := "zeus";
     run_id := pretty (py_hash url);
     max_restarts := if 1 <? num_machines then 3 else 0;
     start_method := "spawn" |}.

(** The state after one more event. *)
Definition logged (ev : Event) (w : World) : World :=
  {| LOCAL_PROCESS_GROUP := LOCAL_PROCESS_GROUP w;
     trace := trace w ++ [ev];
     next_group := next_group w;
     files := files w;
     environ := environ w;
     cuda_device_count := cuda_device_count w;
     clock := clock w;
     init_fault := init_fault w |}.

(** The five environment variables [from_environ] reads. *)
Definition rank_variables : list string :=
  ["LOCAL_RANK"; "RANK"; "GROUP_RANK"; "LOCAL_WORLD_SIZE"; "WORLD_SIZE"].

(** [int(os.environ.get(key, default))] as a value. *)
Definition environ_int (w : World) (key : string) (default : Z) : result Z :=
  match environ w !! key with
  | Some s =>
      match py_int s with
      | Some z => Ok z
      | None => Raise ValueError
      end
  | None => Ok default
  end.

(** The state in which [enable_dist_process_groups] enters the local
    scope: the global group has been initialised, the CUDA device bound
    when the backend is NCCL, and the processes synchronized. *)
Definition after_init (backend : string) (init_method : option string)
    (p : DistributedParams) (timeout : timedelta) (w : World) : World :=
  {| LOCAL_PROCESS_GROUP := LOCAL_PROCESS_GROUP w;
     trace :=
       trace w
       ++ EvInitProcessGroup backend init_method (DistributedParams.world_size p)
            (DistributedParams.global_rank p) timeout
       :: (if str_in (lower backend) ["nccl"]
           then [EvCudaSetDevice (DistributedParams.local_rank p)]
           else [])
       ++ [EvSynchronize];
     next_group := next_group w;
     files := files w;
     environ := environ w;
     cuda_device_count := cuda_device_count w;
     clock := clock w;
     init_fault := init_fault w |}.

(** The state in which the body of the scope starts, when the slot was
    empty and the number of processes per machine is not zero. *)
Definition after_enter (backend : string) (init_method : option string)
    (p : DistributedParams) (timeout : timedelta) (w : World) : World :=
  let k := DistributedParams.num_processes_per_machine p in
  let mr := DistributedParams.machine_rank p in
  let machines := py_range 0 (DistributedParams.world_size p / k) in
  let w0 := after_init backend init_method p timeout w in
  {| LOCAL_PROCESS_GROUP := loop_slot mr (next_group w) machines None;
     trace := trace w0 ++ loop_events k mr (next_group w) machines ++ [EvSynchronize];
     next_group := (next_group w + length machines)%nat;
     files := files w;
     environ := environ w;
     cuda_device_count := cuda_device_count w;
     clock := clock w;
     init_fault := init_fault w |}.


End WithValues.

Arguments World : clear implicits.
Arguments M : clear implicits.
Arguments Callable : clear implicits.
Arguments Worker : clear implicits.
Arguments Runtime : clear implicits.
Arguments enter {Val G Y} _.
Arguments exit {Val G Y} _ _.
#[global] Existing Instances M_ret M_bind.

(** ** Concrete inputs

    A process with integer values, used to run the model on examples. *)

(** Stand-ins for the built-ins and launchers the module only calls. *)
#[global] Instance example_runtime : Runtime Z := {|
  py_int := fun _ => None;
  py_hash := fun _ => 0;
  str_timedelta := fun _ => "0:30:00";
  str_params := fun _ => "DistributedParams";
  temporary_file_name := fun prefix suffix => "/tmp/" +:+ prefix +:+ suffix;
  run_spawn := fun _ _ => ret tt;
  run_elastic := fun _ _ => ret ∅
|}.

(** A process that has created no group yet, on a machine without CUDA
    devices. *)
Definition fresh_process : World Z :=
  {| LOCAL_PROCESS_GROUP := None;
     trace := [];
     next_group := 0;
     files := ∅;
     environ := ∅;
     cuda_device_count := 0;
     clock := "1700000000.0";
     init_fault := None |}.

(** The same process on a machine with one CUDA device. *)
Definition one_device_process : World Z :=
  {| LOCAL_PROCESS_GROUP := None;
     trace := [];
     next_group := 0;
     files := ∅;
     environ := ∅;
     cuda_device_count := 1;
     clock := "1700000000.0";
     init_fault := None |}.

(** A process whose local scope is already open. *)
Definition busy_process : World Z :=
  {| LOCAL_PROCESS_GROUP := Some (Group 7);
     trace := [];
     next_group := 8;
     files := ∅;
     environ := ∅;
     cuda_device_count := 0;
     clock := "1700000000.0";
     init_fault := None |}.

(** A user function that adds up its positional arguments, and one that
    raises. *)
Definition sum_args : Callable Z :=
  {| __module__ := "tests";
     __name__ := "sum_args";
     call args _ := ret (foldr Z.add 0 args) |}.

Definition failing : Callable Z :=
  {| __module__ := "tests";
     __name__ := "failing";
     call _ _ := raise (UserError 0) |}.

(** The only worker of a one-machine, one-process job, and the second
    worker of the middle machine of three machines with two workers each. *)
Definition single_params : DistributedParams :=
  DistributedParams.Make 0 0 0 1 1.

Definition middle_params : DistributedParams :=
  DistributedParams.Make 1 3 1 2 6.

(** A process in which [init_process_group] is going to fail, and one
    whose [RANK] variable is not a number. *)
Definition faulty_process : World Z :=
  {| LOCAL_PROCESS_GROUP := None;
     trace := [];
     next_group := 0;
     files := ∅;
     environ := ∅;
     cuda_device_count := 0;
     clock := "1700000000.0";
     init_fault := Some (UserError 9) |}.

Definition misconfigured_process : World Z :=
  {| LOCAL_PROCESS_GROUP := None;
     trace := [];
     next_group := 0;
     files := ∅;
     environ := {[ "RANK" := "abc" ]};
     cuda_device_count := 0;
     clock := "1700000000.0";
     init_fault := None |}.

(** Launchers that do some work: [mp.spawn] runs the worker of local rank
    0 in a process of its own, which shares the files with its parent;
    the elastic launcher reports 7 for rank 0. *)
Definition first_worker_runtime : Runtime Z := {|
  py_int := fun _ => None;
  py_hash := fun _ => 0;
  str_timedelta := fun _ => "0:30:00";
  str_params := fun _ => "DistributedParams";
  temporary_file_name := fun prefix suffix => "/tmp/" +:+ prefix +:+ suffix;
  run_spawn := fun fn _ w =>
    let child :=
      {| LOCAL_PROCESS_GROUP := None;
         trace := [];
         next_group := 0;
         files := files w;
         environ := environ w;
         cuda_device_count := cuda_device_count w;
         clock := clock w;
         init_fault := init_fault w |} in
    (Ok tt,
     {| LOCAL_PROCESS_GROUP := LOCAL_PROCESS_GROUP w;
        trace := trace w;
        next_group := next_group w;
        files := files (fn 0 child).2;
        environ := environ w;
        cuda_device_count := cuda_device_count w;
        clock := clock w;
        init_fault := init_fault w |});
  run_elastic := fun _ _ => ret {[ 0 := 7 ]}
|}.

(** Parameters of a world smaller than one machine, and of machines
    without processes. *)
Definition undersized_params : DistributedParams :=
  DistributedParams.Make 0 0 0 2 1.

Definition empty_machine_params : DistributedParams :=
  DistributedParams.Make 0 0 0 0 1.

(** ** launch_deco *)

Section LaunchDeco.

Context {Val : Type} {runtime : Runtime Val}.

(** [PicklableWrapper] comes from [mobile_cv.common.misc.py], which is not
    among the sources at hand; it is taken as a parameter, once as it
    wraps the function and once as it wraps the test-case object. *)
Variable PicklableWrapper : Callable Val -> Callable Val.
Variable PicklableWrapper_self : Val -> Val.


End LaunchDeco.


(** * Properties *)

Section Properties.

Context {Val : Type} {runtime : Runtime Val}.


(** ** Running computations *)

Ltac unfold_m :=
  unfold set_LOCAL_PROCESS_GROUP, get_LOCAL_PROCESS_GROUP,
    dist_destroy_process_group, dist_new_group, dist_init_process_group,
    comm_synchronize, torch_cuda_set_device, torch_save, torch_load, assert,
    log, modify, gets, lift, raise, ret, mret, M_ret, mbind, M_bind, bind in *.

Lemma bind_ok {A B} (m : M Val A) (k : A -> M Val B) w a w' :
  m w = (Ok a, w') -> (m ≫= k) w = k a w'.
Proof. intros H. unfold mbind, M_bind, bind. by rewrite H. Qed.

Lemma bind_raise {A B} (m : M Val A) (k : A -> M Val B) w e w' :
  m w = (Raise e, w') -> (m ≫= k) w = (Raise e, w').
Proof. intros H. unfold mbind, M_bind, bind. by rewrite H. Qed.

Lemma bind_inv_ok {A B} (m : M Val A) (k : A -> M Val B) w b w' :
  (m ≫= k) w = (Ok b, w') ->
  exists a w1, m w = (Ok a, w1) /\ k a w1 = (Ok b, w').
Proof.
  unfold mbind, M_bind, bind. destruct (m w) as [[a|e] w1]; intros H.
  - by exists a, w1.
  - discriminate.
Qed.

(** [with] runs the code after the [yield] only when the body returned. *)
Lemma with_body_raises {G Y B} (cm : ContextManager G Y) (body : Y -> M Val B)
    w g y w1 e w2 :
  enter cm w = (Ok (g, y), w1) ->
  body y w1 = (Raise e, w2) ->
  with_ cm body w = (Raise e, w2).
Proof.
  intros Henter Hbody. unfold with_.
  rewrite (bind_ok _ _ _ _ _ Henter). simpl.
  by rewrite (bind_raise _ _ _ _ _ Hbody).
Qed.

Lemma with_body_returns {G Y B} (cm : ContextManager G Y) (body : Y -> M Val B)
    w g y w1 v w2 :
  enter cm w = (Ok (g, y), w1) ->
  body y w1 = (Ok v, w2) ->
  with_ cm body w = (exit cm g ≫= fun _ => ret v) w2.
Proof.
  intros Henter Hbody. unfold with_.
  rewrite (bind_ok _ _ _ _ _ Henter). simpl.
  by rewrite (bind_ok _ _ _ _ _ Hbody).
Qed.

Lemma with_inv_ok {G Y B} (cm : ContextManager G Y) (body : Y -> M Val B) w v w' :
  with_ cm body w = (Ok v, w') ->
  exists g y w1 w2,
    enter cm w = (Ok (g, y), w1) /\
    body y w1 = (Ok v, w2) /\
    exit cm g w2 = (Ok tt, w').
Proof.
  unfold with_. intros H.
  apply bind_inv_ok in H as ([g y] & w1 & Henter & H).
  apply bind_inv_ok in H as (v' & w2 & Hbody & H).
  apply bind_inv_ok in H as ([] & w3 & Hexit & H).
  unfold ret in H. simplify_eq. by exists g, y, w1, w2.
Qed.

(** ** The loop over the machines *)

Lemma new_local_groups_run dist_params machines pg (w : World Val) :
  new_local_groups dist_params machines pg w =
  (Ok (loop_pg (next_group w) machines pg),
   {| LOCAL_PROCESS_GROUP :=
        loop_slot (DistributedParams.machine_rank dist_params) (next_group w)
          machines (LOCAL_PROCESS_GROUP w);
      trace :=
        trace w ++ loop_events (DistributedParams.num_processes_per_machine dist_params)
                     (DistributedParams.machine_rank dist_params) (next_group w) machines;
      next_group := (next_group w + length machines)%nat;
      files := files w;
      environ := environ w;
      cuda_device_count := cuda_device_count w;
      clock := clock w;
      init_fault := init_fault w |}).
Proof.
  revert pg w. induction machines as [|i rest IH]; intros pg w.
  - simpl. unfold ret. destruct w; simpl. by rewrite app_nil_r, Nat.add_0_r.
  - cbn [new_local_groups loop_pg loop_slot loop_events length].
    unfold mbind, M_bind, bind. simpl.
    destruct (i =? DistributedParams.machine_rank dist_params); simpl;
      rewrite IH; simpl;
      rewrite <- ?app_assoc, Nat.add_succ_r; reflexivity.
Qed.

Lemma new_group_calls_loop k mr g0 machines :
  new_group_calls (loop_events k mr g0 machines)
  = (fun i => py_range (i * k) ((i + 1) * k)) <$> machines.
Proof.
  revert g0. induction machines as [|i rest IH]; intros g0; [done|].
  cbn [loop_events]. unfold new_group_calls in *.
  destruct (i =? mr); simpl; by rewrite IH.
Qed.

Lemma new_group_handles_loop k mr g0 machines :
  new_group_handles (loop_events k mr g0 machines)
  = Group <$> seq g0 (length machines).
Proof.
  revert g0. induction machines as [|i rest IH]; intros g0; [done|].
  cbn [loop_events]. unfold new_group_handles in *.
  destruct (i =? mr); simpl; by rewrite IH.
Qed.

Lemma destroy_calls_loop k mr g0 machines :
  destroy_calls (loop_events k mr g0 machines) = [].
Proof.
  revert g0. induction machines as [|i rest IH]; intros g0; [done|].
  cbn [loop_events]. unfold destroy_calls in *.
  destruct (i =? mr); simpl; by rewrite IH.
Qed.

Lemma loop_pg_last g0 machines pg :
  loop_pg g0 machines pg
  = match machines with
    | [] => pg
    | _ :: _ => Some (Group (g0 + length machines - 1))
    end.
Proof.
  revert g0 pg. induction machines as [|i rest IH]; intros g0 pg; [done|].
  cbn [loop_pg]. rewrite IH.
  destruct rest as [|j rest']; simpl; do 2 f_equal; lia.
Qed.

(** Over [range(a, a + len)] the loop assigns the slot at most once: at
    the index equal to [mr], with the handle created at that index. *)
Lemma loop_slot_range mr (len : nat) a g0 slot :
  loop_slot mr g0 (seqZ a (Z.of_nat len)) slot
  = if bool_decide (a <= mr < a + Z.of_nat len)
    then Some (Group (g0 + Z.to_nat (mr - a)))
    else slot.
Proof.
  revert a g0 slot. induction len as [|len IH]; intros a g0 slot.
  - simpl. rewrite bool_decide_eq_false_2; [done|lia].
  - rewrite seqZ_cons by lia. cbn [loop_slot].
    replace (Z.pred (Z.of_nat (S len))) with (Z.of_nat len) by lia.
    rewrite IH. destruct (Z.eqb_spec a mr) as [->|Hne].
    + rewrite bool_decide_eq_false_2 by lia.
      rewrite bool_decide_eq_true_2 by lia.
      do 2 f_equal. lia.
    + case_bool_decide as H1; case_bool_decide as H2; try lia; [|done].
      do 2 f_equal. lia.
Qed.

Lemma slot_assignments_loop_range k mr (len : nat) a g0 :
  slot_assignments (loop_events k mr g0 (seqZ a (Z.of_nat len)))
  = if bool_decide (a <= mr < a + Z.of_nat len)
    then [Some (Group (g0 + Z.to_nat (mr - a)))]
    else [].
Proof.
  revert a g0. induction len as [|len IH]; intros a g0.
  - simpl. rewrite bool_decide_eq_false_2; [done|lia].
  - rewrite seqZ_cons by lia. cbn [loop_events].
    replace (Z.pred (Z.of_nat (S len))) with (Z.of_nat len) by lia.
    unfold slot_assignments in *.
    destruct (Z.eqb_spec a mr) as [->|Hne]; simpl; rewrite IH.
    + rewrite bool_decide_eq_false_2 by lia.
      rewrite bool_decide_eq_true_2 by lia.
      do 3 f_equal. lia.
    + case_bool_decide as H1; case_bool_decide as H2; try lia; [|done].
      do 3 f_equal. lia.
Qed.

(** Consecutive blocks of [k] ranks tile [range(a * k, (a + len) * k)]. *)
Lemma partitions_tile k (len : nat) a :
  0 <= k ->
  concat ((fun i => py_range (i * k) ((i + 1) * k)) <$> seqZ a (Z.of_nat len))
  = py_range (a * k) ((a + Z.of_nat len) * k).
Proof.
  intros Hk. revert a. induction len as [|len IH]; intros a.
  - simpl. unfold py_range. by rewrite seqZ_nil by lia.
  - rewrite seqZ_cons by lia.
    replace (Z.pred (Z.of_nat (S len))) with (Z.of_nat len) by lia.
    rewrite fmap_cons. cbn [concat]. rewrite IH. unfold py_range.
    replace ((a + Z.of_nat (S len)) * k - a * k)
      with (((a + 1) * k - a * k) + ((Z.succ a + Z.of_nat len) * k - Z.succ a * k))
      by lia.
    rewrite seqZ_app by nia. do 2 f_equal. lia.
Qed.

(** ** Entering the local scope *)

(** With an empty slot and a non-zero number of processes per machine,
    entering the local scope runs the loop over [range(num_machines)] and
    then synchronizes. *)
Lemma enter_local_run dist_params (w : World Val) :
  LOCAL_PROCESS_GROUP w = None ->
  DistributedParams.num_processes_per_machine dist_params <> 0 ->
  let k := DistributedParams.num_processes_per_machine dist_params in
  let mr := DistributedParams.machine_rank dist_params in
  let machines := py_range 0 (DistributedParams.world_size dist_params / k) in
  enter (_enable_local_process_group dist_params) w =
  (Ok (loop_pg (next_group w) machines None, tt),
   {| LOCAL_PROCESS_GROUP := loop_slot mr (next_group w) machines None;
      trace := trace w ++ loop_events k mr (next_group w) machines ++ [EvSynchronize];
      next_group := (next_group w + length machines)%nat;
      files := files w;
      environ := environ w;
      cuda_device_count := cuda_device_count w;
      clock := clock w;
      init_fault := init_fault w |}).
Proof.
  intros Hslot Hk k mr machines. cbn [enter _enable_local_process_group].
  unfold mbind, M_bind, bind, get_LOCAL_PROCESS_GROUP, gets, lift, py_floordiv.
  rewrite Hslot. simpl.
  destruct (Z.eqb_spec (DistributedParams.num_processes_per_machine dist_params) 0)
    as [?|_]; [done|].
  rewrite new_local_groups_run. simpl. rewrite Hslot.
  by rewrite <- app_assoc.
Qed.

(** C8: when [comm._LOCAL_PROCESS_GROUP] already holds a group, entering
    the local scope raises [AssertionError] and the process state is the
    one it started from: no group has been created and the slot still
    holds the same group. *)
Theorem enter_local_scope_rejects_occupied_slot dist_params (w : World Val) g :
  LOCAL_PROCESS_GROUP w = Some g ->
  enter (_enable_local_process_group dist_params) w = (Raise AssertionError, w).
Proof.
  intros Hslot. cbn [enter _enable_local_process_group].
  unfold mbind, M_bind, bind, get_LOCAL_PROCESS_GROUP, gets.
  by rewrite Hslot.
Qed.

(** C3: on a topology whose [num_processes_per_machine] divides its
    [world_size], entering the local scope with an empty slot calls
    [dist.new_group] exactly [num_machines = world_size / num_processes_per_machine]
    times and then synchronizes.  Call [i] passes the ranks
    [range(i * k, (i + 1) * k)], for [i] ascending from 0, and together the
    calls cover [range(world_size)]; the list of calls mentions neither
    [machine_rank] nor the ranks of the calling process, so every process
    makes the same ones.  The slot is assigned once, with the handle
    returned by call number [machine_rank], and not at all when
    [machine_rank] is no machine index. *)
Theorem enter_local_scope_creates_every_partition dist_params (w : World Val) :
  let k := DistributedParams.num_processes_per_machine dist_params in
  let ws := DistributedParams.world_size dist_params in
  let mr := DistributedParams.machine_rank dist_params in
  LOCAL_PROCESS_GROUP w = None ->
  0 < k ->
  0 <= ws ->
  (k | ws) ->
  exists pg w' evs,
    enter (_enable_local_process_group dist_params) w = (Ok (pg, tt), w') /\
    trace w' = trace w ++ evs ++ [EvSynchronize] /\
    Z.of_nat (length (new_group_calls evs)) = ws / k /\
    new_group_calls evs
      = (fun i => py_range (i * k) ((i + 1) * k)) <$> py_range 0 (ws / k) /\
    concat (new_group_calls evs) = py_range 0 ws /\
    LOCAL_PROCESS_GROUP w'
      = (if bool_decide (0 <= mr) then new_group_handles evs !! Z.to_nat mr else None) /\
    slot_assignments evs
      = match LOCAL_PROCESS_GROUP w' with Some g => [Some g] | None => [] end.
Proof.
  intros k ws mr Hslot Hk Hws [n Hn].
  assert (Hdiv : ws / k = n) by (rewrite Hn; apply Z.div_mul; lia).
  assert (Hn0 : 0 <= n) by nia.
  pose proof (enter_local_run dist_params w Hslot ltac:(fold k; lia)) as Hrun.
  cbv zeta in Hrun. fold k ws mr in Hrun. rewrite Hdiv in *.
  destruct (Z_of_nat_complete n Hn0) as [m ->].
  unfold py_range in Hrun |- * at 2. rewrite Z.sub_0_r in *.
  exists (loop_pg (next_group w) (seqZ 0 (Z.of_nat m)) None).
  eexists. exists (loop_events k mr (next_group w) (seqZ 0 (Z.of_nat m))).
  split; [exact Hrun|]. cbn [trace LOCAL_PROCESS_GROUP].
  rewrite new_group_calls_loop, new_group_handles_loop, loop_slot_range,
    slot_assignments_loop_range.
  rewrite length_fmap, !length_seqZ, !Nat2Z.id.
  split_and!; try done.
  - rewrite partitions_tile by lia. unfold py_range. f_equal; lia.
  - case_bool_decide as H1; case_bool_decide as H2; try lia.
    + rewrite list_lookup_fmap, lookup_seq_lt by lia. simpl.
      do 2 f_equal. lia.
    + rewrite list_lookup_fmap, lookup_seq_ge by lia. done.
    + done.
  - by case_bool_decide.
Qed.

(** ** Leaving the local scope *)

Lemma exit_local_run dist_params g (w : World Val) :
  exit (_enable_local_process_group dist_params) (Some g) w =
  (Ok tt,
   {| LOCAL_PROCESS_GROUP := None;
      trace := trace w ++ [EvDestroyProcessGroup (Some g); EvSetLocalProcessGroup None];
      next_group := next_group w;
      files := files w;
      environ := environ w;
      cuda_device_count := cuda_device_count w;
      clock := clock w;
      init_fault := init_fault w |}).
Proof.
  cbn [exit _enable_local_process_group].
  unfold_m. simpl. by rewrite <- app_assoc.
Qed.

Lemma exit_local_unbound dist_params (w : World Val) :
  exit (_enable_local_process_group dist_params) None w = (Raise UnboundLocalError, w).
Proof. reflexivity. Qed.

(** C5: on a topology with at least one machine, the group destroyed on
    leaving the local scope is the one returned by the last
    [dist.new_group] call, the call for partition [num_machines - 1].  The
    slot holds that group exactly when [machine_rank = num_machines - 1].
    A process with [0 <= machine_rank < num_machines - 1] holds the group
    of its own partition, which is a different handle: leaving the scope
    issues one destroy call, for the last group, and assigns [None] to the
    slot, so the group the process held is dropped without a destroy call
    of its own. *)
Theorem exit_local_scope_destroys_last_partition_group dist_params (w : World Val) :
  let k := DistributedParams.num_processes_per_machine dist_params in
  let mr := DistributedParams.machine_rank dist_params in
  let n := DistributedParams.world_size dist_params / k in
  LOCAL_PROCESS_GROUP w = None ->
  0 < k ->
  1 <= n ->
  exists g_last w1 evs,
    enter (_enable_local_process_group dist_params) w = (Ok (Some g_last, tt), w1) /\
    trace w1 = trace w ++ evs ++ [EvSynchronize] /\
    length (new_group_handles evs) = Z.to_nat n /\
    new_group_handles evs !! Z.to_nat (n - 1) = Some g_last /\
    (forall w2 : World Val, exists w3,
        exit (_enable_local_process_group dist_params) (Some g_last) w2 = (Ok tt, w3) /\
        trace w3
          = trace w2 ++ [EvDestroyProcessGroup (Some g_last); EvSetLocalProcessGroup None] /\
        LOCAL_PROCESS_GROUP w3 = None) /\
    (LOCAL_PROCESS_GROUP w1 = Some g_last <-> mr = n - 1) /\
    (0 <= mr < n - 1 ->
     exists g,
       LOCAL_PROCESS_GROUP w1 = Some g /\
       new_group_handles evs !! Z.to_nat mr = Some g /\
       g <> g_last).
Proof.
  intros k mr n Hslot Hk Hn.
  pose proof (enter_local_run dist_params w Hslot ltac:(fold k; lia)) as Hrun.
  cbv zeta in Hrun. fold k mr n in Hrun.
  destruct (Z_of_nat_complete n ltac:(lia)) as [m Hm].
  destruct m as [|m]; [lia|]. rewrite Hm in *.
  unfold py_range in Hrun. rewrite Z.sub_0_r in Hrun.
  rewrite loop_pg_last, loop_slot_range in Hrun.
  rewrite seqZ_cons in Hrun at 1 by lia. rewrite length_seqZ, Nat2Z.id in Hrun.
  exists (Group (next_group w + S m - 1)).
  eexists. exists (loop_events k mr (next_group w) (seqZ 0 (Z.of_nat (S m)))).
  split; [exact Hrun|]. cbn [trace LOCAL_PROCESS_GROUP].
  rewrite new_group_handles_loop, length_fmap, length_seq, length_seqZ, !Nat2Z.id.
  split_and!; try done.
  - rewrite list_lookup_fmap, lookup_seq_lt by lia. simpl. do 2 f_equal. lia.
  - intros w2. eexists. split; [apply exit_local_run|]. done.
  - case_bool_decide as H1; split; intros H2; try done; try lia.
    + simplify_eq. lia.
    + do 2 f_equal. lia.
  - intros Hmr. exists (Group (next_group w + Z.to_nat (mr - 0))).
    rewrite bool_decide_eq_true_2 by lia. split_and!; [done| |].
    + rewrite list_lookup_fmap, lookup_seq_lt by lia. simpl. do 2 f_equal. lia.
    + intros ?; simplify_eq. lia.
Qed.

(** ** The global scope *)

(** C4: whenever the scope opened by [enable_dist_process_groups] is left
    normally, its teardown is, in this order: one destroy call for a local
    group, the assignment of [None] to [comm._LOCAL_PROCESS_GROUP], and
    the destroy call for the default (global) group.  The state in which
    the global destroy is issued already has an empty slot. *)
Theorem teardown_destroys_local_before_global {B} backend init_method dist_params
    timeout (body : unit -> M Val B) w v w' :
  with_ (enable_dist_process_groups backend init_method dist_params timeout) body w
    = (Ok v, w') ->
  exists frame w1 w2 g w3,
    enter (enable_dist_process_groups backend init_method dist_params timeout) w
      = (Ok (frame, tt), w1) /\
    body tt w1 = (Ok v, w2) /\
    exit (_enable_local_process_group frame.1) frame.2 w2 = (Ok tt, w3) /\
    trace w3 = trace w2 ++ [EvDestroyProcessGroup (Some g); EvSetLocalProcessGroup None] /\
    LOCAL_PROCESS_GROUP w3 = None /\
    dist_destroy_process_group None w3 = (Ok tt, w') /\
    trace w' = trace w2 ++ [EvDestroyProcessGroup (Some g);
                            EvSetLocalProcessGroup None;
                            EvDestroyProcessGroup None] /\
    LOCAL_PROCESS_GROUP w' = None.
Proof.
  intros H. apply with_inv_ok in H as ([p pg] & [] & w1 & w2 & Henter & Hbody & Hexit).
  cbn [exit enable_dist_process_groups] in Hexit.
  apply bind_inv_ok in Hexit as ([] & w3 & Hlocal & Hglobal).
  cbn [fst snd] in Hlocal.
  destruct pg as [g|]; [|by rewrite exit_local_unbound in Hlocal].
  rewrite exit_local_run in Hlocal. simplify_eq.
  eexists (p, Some g), w1, w2, g, _.
  do 2 (split; [done|]). split; [apply exit_local_run|].
  do 2 (split; [done|]). split; [exact Hglobal|].
  unfold_m. simplify_eq. simpl. by rewrite <- app_assoc.
Qed.

(** ** The worker *)

(** C1, as the code has it: when the user function raises inside the scope
    of [default_distributed_worker], the worker ends with that exception
    in the very state the user function left: none of the teardown steps
    has run, no destroy call has been issued and the slot has not been
    cleared. *)
Theorem worker_skips_teardown_when_main_func_raises main_func args kwargs backend
    dist_url p return_save_file timeout w frame w1 e w2 :
  enter (enable_dist_process_groups backend dist_url (PyParams p)
           (default DEFAULT_TIMEOUT timeout)) w = (Ok (frame, tt), w1) ->
  call main_func args kwargs w1 = (Raise e, w2) ->
  default_distributed_worker main_func args kwargs backend dist_url
    (PyParams p) return_save_file timeout w = (Raise e, w2).
Proof.
  intros Henter Hcall. unfold default_distributed_worker.
  cbn [truthy]. rewrite (bind_ok _ _ w (PyParams p) w) by done.
  apply (with_body_raises _ _ _ _ _ _ _ _ Henter).
  cbn [params_of]. rewrite (bind_ok _ _ w1 p w1) by done.
  cbn [call save_return_deco]. by apply bind_raise.
Qed.

(** ** Ranks *)

(** C2: constructing a [DistributedParams] raises [ValueError] exactly
    when [global_rank] differs from
    [machine_rank * num_processes_per_machine + local_rank]; when the
    equation holds the object is built and its five fields are the five
    arguments. *)
Theorem init_raises_iff_ranks_inconsistent local_rank global_rank machine_rank
    num_processes_per_machine world_size :
  (DistributedParams.init local_rank global_rank machine_rank
     num_processes_per_machine world_size = Raise ValueError
   <-> global_rank <> machine_rank * num_processes_per_machine + local_rank) /\
  (global_rank = machine_rank * num_processes_per_machine + local_rank ->
   exists self,
     DistributedParams.init local_rank global_rank machine_rank
       num_processes_per_machine world_size = Ok self /\
     DistributedParams.local_rank self = local_rank /\
     DistributedParams.global_rank self = global_rank /\
     DistributedParams.machine_rank self = machine_rank /\
     DistributedParams.num_processes_per_machine self = num_processes_per_machine /\
     DistributedParams.world_size self = world_size).
Proof.
  unfold DistributedParams.init, DistributedParams.validate. simpl.
  destruct (Z.eqb_spec global_rank
              (machine_rank * num_processes_per_machine + local_rank)) as [Heq|Hne];
    simpl; split.
  - split; [discriminate|done].
  - intros _. by eexists.
  - done.
  - done.
Qed.

(** C7: [_mp_spawn_helper] computes [global_rank] as
    [machine_rank * num_processes_per_machine + local_rank]; the
    [DistributedParams] it builds from it passes [validate], so the helper
    always reaches the worker, which receives that object.  For a local
    rank within [0, num_processes_per_machine) the global rank lies in the
    block of the machine. *)
Theorem mp_spawn_helper_builds_valid_params local_rank
    (distributed_worker : Worker Val) main_func
    args kwargs backend dist_url return_save_file timeout world_size
    num_processes_per_machine machine_rank w :
  0 <= local_rank < num_processes_per_machine ->
  let global_rank := machine_rank * num_processes_per_machine + local_rank in
  let dist_params :=
    DistributedParams.Make local_rank global_rank machine_rank
      num_processes_per_machine world_size in
  DistributedParams.init local_rank global_rank machine_rank
    num_processes_per_machine world_size = Ok dist_params /\
  DistributedParams.validate dist_params = Ok tt /\
  machine_rank * num_processes_per_machine <= DistributedParams.global_rank dist_params
    < (machine_rank + 1) * num_processes_per_machine /\
  _mp_spawn_helper local_rank distributed_worker main_func args kwargs backend
    dist_url return_save_file timeout world_size num_processes_per_machine
    machine_rank w
  = distributed_worker main_func args kwargs backend dist_url
      (PyParams dist_params) (of_optional_str return_save_file) (Some timeout) w.
Proof.
  intros Hlocal global_rank dist_params.
  assert (Hvalid : DistributedParams.validate dist_params = Ok tt).
  { unfold DistributedParams.validate. simpl. by rewrite Z.eqb_refl. }
  assert (Hinit : DistributedParams.init local_rank global_rank machine_rank
                    num_processes_per_machine world_size = Ok dist_params).
  { unfold DistributedParams.init. fold dist_params. by rewrite Hvalid. }
  split_and!; [done|done|simpl; lia|simpl; lia|].
  unfold _mp_spawn_helper. fold global_rank. rewrite Hinit.
  reflexivity.
Qed.

(** ** The return-value decorator *)

(** C9: the function returned by [save_return_deco] returns what the
    wrapped function returns.  Given a location, it stores that value at
    [<location>.rank<rank>] and touches nothing else, and [torch.load] of
    that path then returns the value; without a location it leaves the
    state as the wrapped function left it. *)
Theorem save_return_deco_round_trip func (location : option string) rank
    args kwargs w r w1 :
  call func args kwargs w = (Ok r, w1) ->
  exists w2,
    call (save_return_deco (of_optional_str location) rank func) args kwargs w
      = (Ok r, w2) /\
    match location with
    | None => w2 = w1
    | Some loc =>
        let filename := loc +:+ ".rank" +:+ pretty rank in
        files w2 = <[filename := r]> (files w1) /\
        torch_load filename w2 = (Ok r, w2) /\
        trace w2 = trace w1 /\
        LOCAL_PROCESS_GROUP w2 = LOCAL_PROCESS_GROUP w1
    end.
Proof.
  intros Hcall. cbn [call save_return_deco].
  destruct location as [loc|]; cbn [of_optional_str is_None negb py_str].
  - eexists. split.
    + rewrite (bind_ok _ _ _ _ _ Hcall). unfold_m. simpl. reflexivity.
    + simpl. split_and!; try done.
      unfold_m. simpl. by rewrite lookup_insert_eq.
  - exists w1. split; [|done].
    rewrite (bind_ok _ _ _ _ _ Hcall). reflexivity.
Qed.

(** A wrapped function that raises: the wrapper raises the same exception
    and writes nothing. *)
Lemma save_return_deco_raises func return_save_file rank args kwargs w e w1 :
  call func args kwargs w = (Raise e, w1) ->
  call (save_return_deco return_save_file rank func) args kwargs w = (Raise e, w1).
Proof. intros Hcall. cbn [call save_return_deco]. by apply bind_raise. Qed.

(** ** launch *)

Lemma str_in_methods_false launch_method :
  launch_method <> "multiprocessing" ->
  launch_method <> "elastic" ->
  str_in launch_method ["multiprocessing"; "elastic"] = false.
Proof.
  intros H1 H2. unfold str_in. simpl.
  apply String.eqb_neq in H1. apply String.eqb_neq in H2.
  by rewrite H1, H2.
Qed.

(** C6, as the code has it: with [num_machines * num_processes_per_machine = 1],
    [always_spawn] unset and the device check passed (the backend is not
    ["NCCL"], or [num_processes_per_machine] does not exceed the device
    count), [launch] is one call of [main_func] on [args] and [kwargs]
    (the empty dictionary when none is given) in the calling process:
    same value or exception, same final state, hence no process started
    and no group created by [launch] itself. *)
Theorem launch_single_process_calls_main_func main_func num_processes_per_machine
    num_machines machine_rank dist_url backend launch_method timeout args kwargs
    _distributed_worker w :
  num_machines * num_processes_per_machine = 1 ->
  (backend = "NCCL" -> num_processes_per_machine <= cuda_device_count w) ->
  launch main_func num_processes_per_machine num_machines machine_rank dist_url
    backend false launch_method timeout args kwargs _distributed_worker w
  = call main_func args (default ∅ kwargs) w.
Proof.
  intros Hsize Hdev. unfold launch.
  assert (Hurl : forall (k : string -> M Val Val),
            (match dist_url with
             | Some url => ret url
             | None => now ← gets clock; ret ("file:///tmp/mcvdh_dist_file_" +:+ now)
             end ≫= k) w
            = k (match dist_url with
                 | Some url => url
                 | None => "file:///tmp/mcvdh_dist_file_" +:+ clock w
                 end) w).
  { intros k. by destruct dist_url. }
  rewrite Hurl. clear Hurl.
  assert (Hcheck : forall (k : unit -> M Val Val),
            ((if String.eqb backend "NCCL"
              then devices ← gets cuda_device_count;
                   assert (num_processes_per_machine <=? devices)
              else ret tt) ≫= k) w = k tt w).
  { intros k. destruct (String.eqb_spec backend "NCCL") as [Hb|Hb]; [|done].
    unfold_m. simpl. apply Hdev, Z.leb_le in Hb. by rewrite Hb. }
  rewrite Hcheck. clear Hcheck.
  rewrite Hsize. reflexivity.
Qed.

(** C10, as the code has it: when [launch] takes the multi-process branch
    ([world_size > 1] or [always_spawn]) with a [launch_method] that is
    neither ["multiprocessing"] nor ["elastic"], it raises before starting
    any process or creating any group, and the state is untouched: the
    exception is [ValueError], unless the device check at the start has
    already failed with [AssertionError]. *)
Theorem launch_rejects_unknown_method main_func num_processes_per_machine
    num_machines machine_rank dist_url backend always_spawn launch_method timeout
    args kwargs _distributed_worker w :
  1 < num_machines * num_processes_per_machine \/ always_spawn = true ->
  launch_method <> "multiprocessing" ->
  launch_method <> "elastic" ->
  launch main_func num_processes_per_machine num_machines machine_rank dist_url
    backend always_spawn launch_method timeout args kwargs _distributed_worker w
  = (Raise (if device_check_fails backend num_processes_per_machine w
            then AssertionError else ValueError), w).
Proof.
  intros Hmulti H1 H2. unfold launch, device_check_fails.
  assert (Hbranch : (1 <? num_machines * num_processes_per_machine) || always_spawn = true).
  { destruct Hmulti as [H| ->]; [|by rewrite orb_true_r].
    apply Z.ltb_lt in H. by rewrite H. }
  rewrite Hbranch, (str_in_methods_false _ H1 H2). simpl.
  destruct dist_url; unfold_m; simpl;
    destruct (String.eqb backend "NCCL"); simpl; try done;
    by destruct (num_processes_per_machine <=? cuda_device_count w).
Qed.

(** ** Reading the ranks from the environment *)

Lemma _get_key_run key default (w : World Val) :
  _get_key key default w
  = (match environ w !! key with
     | Some s => match py_int s with Some z => Ok z | None => Raise ValueError end
     | None => Ok default
     end, w).
Proof.
  unfold _get_key. unfold_m. simpl.
  destruct (environ w !! key) as [s|]; [|done]. by destruct (py_int s).
Qed.

(** [from_environ] only reads: whatever it returns or raises, the state is
    the one it started from. *)
Lemma from_environ_state (w : World Val) : (from_environ w).2 = w.
Proof.
  unfold from_environ.
  repeat (unfold mbind at 1, M_bind at 1, bind at 1; rewrite _get_key_run;
          match goal with
          | |- context [ environ w !! ?k ] =>
              destruct (environ w !! k) as [?|]; [destruct (py_int _)|]
          end; [|done|]).
  all: unfold lift; done.
Qed.

(** With none of the five variables set, [from_environ] builds the
    parameters of a single-process job. *)
Theorem from_environ_defaults (w : World Val) :
  (forall key, key ∈ rank_variables -> environ w !! key = None) ->
  from_environ w = (Ok (DistributedParams.Make 0 0 0 1 1), w).
Proof.
  intros Hunset. unfold from_environ.
  unfold mbind, M_bind, bind. rewrite !_get_key_run.
  rewrite !Hunset by (unfold rank_variables; set_solver).
  reflexivity.
Qed.

Lemma environ_int_raise (w : World Val) key default e :
  environ_int w key default = Raise e -> e = ValueError.
Proof.
  unfold environ_int. destruct (environ w !! key) as [s|]; [|done].
  destruct (py_int s); [done|]. by intros [= <-].
Qed.

Lemma init_raise lr gr mr k ws e :
  DistributedParams.init lr gr mr k ws = Raise e -> e = ValueError.
Proof.
  unfold DistributedParams.init, DistributedParams.validate. simpl.
  destruct (gr =? mr * k + lr); simpl; [done|]. by intros [= <-].
Qed.

Lemma init_ok lr gr mr k ws p :
  DistributedParams.init lr gr mr k ws = Ok p ->
  p = DistributedParams.Make lr gr mr k ws /\ gr = mr * k + lr.
Proof.
  unfold DistributedParams.init, DistributedParams.validate. simpl.
  destruct (Z.eqb_spec gr (mr * k + lr)); simpl; [|done]. by intros [= <-].
Qed.

Lemma bind_get_key {B} key default (k : Z -> M Val B) (w : World Val) :
  (_get_key key default ≫= k) w
  = match environ_int w key default with
    | Ok z => k z w
    | Raise e => (Raise e, w)
    end.
Proof.
  unfold mbind, M_bind, bind. rewrite _get_key_run. unfold environ_int.
  destruct (environ w !! key) as [s|]; [|done]. by destruct (py_int s).
Qed.

(** [from_environ] as a function of the five variables. *)
Lemma from_environ_run (w : World Val) :
  from_environ w
  = (result_bind (environ_int w "LOCAL_RANK" 0) (fun local_rank =>
     result_bind (environ_int w "RANK" 0) (fun global_rank =>
     result_bind (environ_int w "GROUP_RANK" 0) (fun machine_rank =>
     result_bind (environ_int w "LOCAL_WORLD_SIZE" 1) (fun num_processes_per_machine =>
     result_bind (environ_int w "WORLD_SIZE" 1) (fun world_size =>
       DistributedParams.init local_rank global_rank machine_rank
         num_processes_per_machine world_size))))), w).
Proof.
  unfold from_environ.
  rewrite bind_get_key. destruct (environ_int w "LOCAL_RANK" 0); simpl; [|done].
  rewrite bind_get_key. destruct (environ_int w "RANK" 0); simpl; [|done].
  rewrite bind_get_key. destruct (environ_int w "GROUP_RANK" 0); simpl; [|done].
  rewrite bind_get_key. destruct (environ_int w "LOCAL_WORLD_SIZE" 1); simpl; [|done].
  rewrite bind_get_key. destruct (environ_int w "WORLD_SIZE" 1); simpl; [|done].
  reflexivity.
Qed.

(** Whatever the environment holds, [from_environ] leaves the state alone
    and either returns parameters that satisfy the rank equation, each
    field being the value of its variable or its default, or raises
    [ValueError]. *)
Theorem from_environ_outcome (w : World Val) :
  exists r,
    from_environ w = (r, w) /\
    match r with
    | Ok p =>
        DistributedParams.global_rank p
          = DistributedParams.machine_rank p * DistributedParams.num_processes_per_machine p
            + DistributedParams.local_rank p /\
        environ_int w "LOCAL_RANK" 0 = Ok (DistributedParams.local_rank p) /\
        environ_int w "RANK" 0 = Ok (DistributedParams.global_rank p) /\
        environ_int w "GROUP_RANK" 0 = Ok (DistributedParams.machine_rank p) /\
        environ_int w "LOCAL_WORLD_SIZE" 1
          = Ok (DistributedParams.num_processes_per_machine p) /\
        environ_int w "WORLD_SIZE" 1 = Ok (DistributedParams.world_size p)
    | Raise e => e = ValueError
    end.
Proof.
  rewrite from_environ_run. eexists. split; [reflexivity|].
  destruct (environ_int w "LOCAL_RANK" 0) as [lr|e] eqn:E1; simpl;
    [|by eapply environ_int_raise].
  destruct (environ_int w "RANK" 0) as [gr|e] eqn:E2; simpl;
    [|by eapply environ_int_raise].
  destruct (environ_int w "GROUP_RANK" 0) as [mr|e] eqn:E3; simpl;
    [|by eapply environ_int_raise].
  destruct (environ_int w "LOCAL_WORLD_SIZE" 1) as [k|e] eqn:E4; simpl;
    [|by eapply environ_int_raise].
  destruct (environ_int w "WORLD_SIZE" 1) as [ws|e] eqn:E5; simpl;
    [|by eapply environ_int_raise].
  destruct (DistributedParams.init lr gr mr k ws) as [p|e] eqn:E6;
    [|by eapply init_raise].
  apply init_ok in E6 as [-> ->]. simpl. done.
Qed.

(** A rank variable that is set to a text [int] rejects makes
    [from_environ] raise [ValueError], whatever the other variables hold. *)
Theorem from_environ_rejects_unparsable (w : World Val) key s :
  key ∈ rank_variables ->
  environ w !! key = Some s ->
  py_int s = None ->
  from_environ w = (Raise ValueError, w).
Proof.
  intros Hkey Hset Hbad.
  assert (Hread : forall default, environ_int w key default = Raise ValueError).
  { intros default. unfold environ_int. by rewrite Hset, Hbad. }
  rewrite from_environ_run. f_equal.
  unfold rank_variables in Hkey. set_unfold.
  destruct (environ_int w "LOCAL_RANK" 0) as [lr|e] eqn:E1; simpl;
    [|by rewrite (environ_int_raise _ _ _ _ E1)].
  destruct (environ_int w "RANK" 0) as [gr|e] eqn:E2; simpl;
    [|by rewrite (environ_int_raise _ _ _ _ E2)].
  destruct (environ_int w "GROUP_RANK" 0) as [mr|e] eqn:E3; simpl;
    [|by rewrite (environ_int_raise _ _ _ _ E3)].
  destruct (environ_int w "LOCAL_WORLD_SIZE" 1) as [k|e] eqn:E4; simpl;
    [|by rewrite (environ_int_raise _ _ _ _ E4)].
  destruct (environ_int w "WORLD_SIZE" 1) as [ws|e] eqn:E5; simpl;
    [|by rewrite (environ_int_raise _ _ _ _ E5)].
  destruct Hkey as [->|[->|[->|[->|[->|[]]]]]]; congruence.
Qed.

(** ** Entering the global scope *)

Lemma enter_global_prefix backend init_method p timeout (w : World Val) :
  str_in (lower backend) ["nccl"; "gloo"] = true ->
  init_fault w = None ->
  enter (enable_dist_process_groups backend init_method (PyParams p) timeout) w
  = (enter (_enable_local_process_group p) ≫= fun inner => ret ((p, inner.1), tt))
      (after_init backend init_method p timeout w).
Proof.
  intros Hbackend Hfault. cbn [enter enable_dist_process_groups params_of].
  rewrite Hbackend. unfold after_init.
  destruct w as [slot tr g0 fs env devices now fault]. simpl in Hfault. subst fault.
  destruct (str_in (lower backend) ["nccl"]);
    unfold assert, lift, dist_init_process_group, torch_cuda_set_device,
      comm_synchronize, log, modify, gets, raise, ret;
    unfold mbind at 1 2 3 4 5 6, M_bind at 1 2 3 4 5 6, bind at 1 2 3 4 5 6;
    simpl; rewrite <- ?app_assoc; reflexivity.
Qed.

Lemma enter_global_run backend init_method p timeout (w : World Val) :
  str_in (lower backend) ["nccl"; "gloo"] = true ->
  init_fault w = None ->
  LOCAL_PROCESS_GROUP w = None ->
  DistributedParams.num_processes_per_machine p <> 0 ->
  enter (enable_dist_process_groups backend init_method (PyParams p) timeout) w
  = (Ok ((p, loop_pg (next_group w)
               (py_range 0 (DistributedParams.world_size p
                            / DistributedParams.num_processes_per_machine p)) None), tt),
     after_enter backend init_method p timeout w).
Proof.
  intros Hbackend Hfault Hslot Hk.
  rewrite enter_global_prefix by done.
  unfold mbind, M_bind, bind. rewrite enter_local_run by done.
  reflexivity.
Qed.

(** Entering the scope on a supported backend, with an empty slot and at
    least one process per machine: [init_process_group] is called with the
    world size and the global rank of the parameters, the CUDA device
    [local_rank] is selected exactly when the backend is NCCL (in any
    letter case), the processes synchronize, one group per machine is
    created, and they synchronize again.  Nothing is destroyed. *)
Theorem enter_global_scope_trace backend init_method p timeout (w : World Val) :
  let k := DistributedParams.num_processes_per_machine p in
  str_in (lower backend) ["nccl"; "gloo"] = true ->
  init_fault w = None ->
  LOCAL_PROCESS_GROUP w = None ->
  0 < k ->
  exists pg w1 evs,
    enter (enable_dist_process_groups backend init_method (PyParams p) timeout) w
      = (Ok ((p, pg), tt), w1) /\
    trace w1
      = trace w
        ++ EvInitProcessGroup backend init_method (DistributedParams.world_size p)
             (DistributedParams.global_rank p) timeout
        :: (if String.eqb (lower backend) "nccl"
            then [EvCudaSetDevice (DistributedParams.local_rank p)]
            else [])
        ++ EvSynchronize :: evs ++ [EvSynchronize] /\
    new_group_calls evs
      = (fun i => py_range (i * k) ((i + 1) * k))
        <$> py_range 0 (DistributedParams.world_size p / k) /\
    (forall ev, ev ∈ evs ->
       match ev with
       | EvNewGroup _ _ | EvSetLocalProcessGroup (Some _) => True
       | _ => False
       end) /\
    files w1 = files w.
Proof.
  intros k Hbackend Hfault Hslot Hk.
  eexists _, _, (loop_events k (DistributedParams.machine_rank p) (next_group w)
                   (py_range 0 (DistributedParams.world_size p / k))).
  split; [apply enter_global_run; try done; fold k; lia|].
  unfold after_enter, after_init. cbn [trace files]. fold k.
  split_and!; [| apply new_group_calls_loop | | done].
  - unfold str_in. simpl. rewrite orb_false_r.
    rewrite <- !app_assoc. simpl. by rewrite <- !app_assoc.
  - generalize (next_group w).
    induction (py_range 0 (DistributedParams.world_size p / k)) as [|i rest IH];
      intros g0 ev Hev; simpl in Hev.
    + by apply elem_of_nil in Hev.
    + apply elem_of_cons in Hev as [->|Hev]; [done|].
      apply elem_of_app in Hev as [Hev|Hev]; [|by eapply IH].
      destruct (i =? DistributedParams.machine_rank p).
      * apply list_elem_of_singleton in Hev as ->. done.
      * by apply elem_of_nil in Hev.
Qed.

(** ** The worker's error paths *)

Lemma with_enter_raises {G Y B} (cm : ContextManager G Y) (body : Y -> M Val B)
    w e w1 :
  enter cm w = (Raise e, w1) ->
  with_ cm body w = (Raise e, w1).
Proof. intros Henter. unfold with_. by apply bind_raise. Qed.

Lemma worker_with_object main_func args kwargs backend dist_url dist_params
    return_save_file timeout (w : World Val) :
  truthy dist_params = true ->
  default_distributed_worker main_func args kwargs backend dist_url dist_params
    return_save_file timeout w
  = with_ (enable_dist_process_groups backend dist_url dist_params
             (default DEFAULT_TIMEOUT timeout))
      (fun _ =>
         p ← lift (params_of dist_params);
         call (save_return_deco return_save_file (DistributedParams.global_rank p)
                 main_func) args kwargs) w.
Proof.
  intros Htruthy. unfold default_distributed_worker. rewrite Htruthy.
  by rewrite (bind_ok _ _ w dist_params w).
Qed.

(** A backend other than NCCL or Gloo (in any letter case) is refused
    before anything else happens: whatever object is passed as
    [dist_params], the worker raises [AssertionError], the state is
    untouched and the user function is not called. *)
Theorem worker_rejects_unknown_backend main_func args kwargs backend dist_url
    dist_params return_save_file timeout (w : World Val) :
  truthy dist_params = true ->
  str_in (lower backend) ["nccl"; "gloo"] = false ->
  default_distributed_worker main_func args kwargs backend dist_url dist_params
    return_save_file timeout w
  = (Raise AssertionError, w).
Proof.
  intros Htruthy Hbackend. rewrite worker_with_object by done.
  apply with_enter_raises. cbn [enter enable_dist_process_groups].
  by rewrite Hbackend.
Qed.

Lemma worker_rejects_foreign_dist_params_aux main_func args kwargs backend dist_url
    dist_params return_save_file timeout (w : World Val) :
  truthy dist_params = true ->
  params_of dist_params = Raise AttributeError ->
  str_in (lower backend) ["nccl"; "gloo"] = true ->
  default_distributed_worker main_func args kwargs backend dist_url dist_params
    return_save_file timeout w
  = (Raise AttributeError, w).
Proof.
  intros Htruthy Hforeign Hbackend. rewrite worker_with_object by done.
  apply with_enter_raises. cbn [enter enable_dist_process_groups].
  by rewrite Hbackend, Hforeign.
Qed.

(** A truthy [dist_params] that is not a [DistributedParams] (a string or
    a duration that arrived by position) makes the worker raise
    [AttributeError] on a supported backend, before [init_process_group]
    is called and without calling the user function. *)
Theorem worker_rejects_foreign_dist_params main_func args kwargs backend dist_url
    dist_params return_save_file timeout (w : World Val) :
  truthy dist_params = true ->
  (forall p, dist_params <> PyParams p) ->
  str_in (lower backend) ["nccl"; "gloo"] = true ->
  default_distributed_worker main_func args kwargs backend dist_url dist_params
    return_save_file timeout w
  = (Raise AttributeError, w).
Proof.
  intros Htruthy Hforeign Hbackend.
  apply worker_rejects_foreign_dist_params_aux; try done.
  destruct dist_params as [| | |p]; try done. by destruct (Hforeign p).
Qed.

(** When [init_process_group] fails, the worker raises its exception right
    after that call, which used [DEFAULT_TIMEOUT] if no timeout was given:
    no device is selected, no group is created and the user function is
    not called. *)
Theorem worker_init_process_group_fails main_func args kwargs backend dist_url p
    return_save_file timeout (w : World Val) e :
  str_in (lower backend) ["nccl"; "gloo"] = true ->
  init_fault w = Some e ->
  default_distributed_worker main_func args kwargs backend dist_url (PyParams p)
    return_save_file timeout w
  = (Raise e,
     logged (EvInitProcessGroup backend dist_url (DistributedParams.world_size p)
               (DistributedParams.global_rank p) (default DEFAULT_TIMEOUT timeout)) w).
Proof.
  intros Hbackend Hfault. rewrite worker_with_object by done.
  apply with_enter_raises. cbn [enter enable_dist_process_groups params_of].
  rewrite Hbackend.
  destruct w as [slot tr g0 fs env devices now fault]. simpl in Hfault. subst fault.
  reflexivity.
Qed.

(** ** Degenerate topologies *)

(** A world smaller than one machine ([world_size // num_processes_per_machine]
    is zero or negative): no local group is created and the slot stays
    empty; when the body returns, the code after the [yield] reads the
    unbound [pg] and raises [UnboundLocalError], which replaces the body's
    value.  The global group is never destroyed. *)
Theorem scope_without_machines_raises {B} backend init_method p timeout
    (body : unit -> M Val B) (w : World Val) v w2 :
  let k := DistributedParams.num_processes_per_machine p in
  let w1 := logged EvSynchronize (after_init backend init_method p timeout w) in
  str_in (lower backend) ["nccl"; "gloo"] = true ->
  init_fault w = None ->
  LOCAL_PROCESS_GROUP w = None ->
  0 < k ->
  DistributedParams.world_size p / k <= 0 ->
  body tt w1 = (Ok v, w2) ->
  new_group_calls (trace w1) = new_group_calls (trace w) /\
  LOCAL_PROCESS_GROUP w1 = None /\
  with_ (enable_dist_process_groups backend init_method (PyParams p) timeout) body w
    = (Raise UnboundLocalError, w2).
Proof.
  intros k w1 Hbackend Hfault Hslot Hk Hn Hbody.
  assert (Hrange : py_range 0 (DistributedParams.world_size p / k) = []).
  { unfold py_range. apply seqZ_nil. lia. }
  assert (Henter :
    enter (enable_dist_process_groups backend init_method (PyParams p) timeout) w
    = (Ok ((p, None), tt), w1)).
  { rewrite enter_global_run by (try done; fold k; lia).
    unfold after_enter. fold k. rewrite Hrange. simpl.
    unfold w1, logged, after_init. simpl.
    by rewrite Nat.add_0_r, Hslot. }
  split_and!.
  - unfold w1, logged, after_init, new_group_calls. cbn [trace].
    destruct (str_in (lower backend) ["nccl"]);
      rewrite !omap_app; simpl; by rewrite !app_nil_r.
  - exact Hslot.
  - rewrite (with_body_returns _ _ _ _ _ _ _ _ Henter Hbody).
    cbn [exit enable_dist_process_groups fst snd].
    by rewrite (bind_raise _ _ _ _ _ (bind_raise _ _ _ _ _
                  (exit_local_unbound p w2))).
Qed.

(** Parameters with no process per machine: entering the scope
    initialises the global group and then fails on the division with
    [ZeroDivisionError]; the body is not run and the global group is not
    destroyed. *)
Theorem scope_zero_processes_per_machine {B} backend init_method p timeout
    (body : unit -> M Val B) (w : World Val) :
  str_in (lower backend) ["nccl"; "gloo"] = true ->
  init_fault w = None ->
  LOCAL_PROCESS_GROUP w = None ->
  DistributedParams.num_processes_per_machine p = 0 ->
  with_ (enable_dist_process_groups backend init_method (PyParams p) timeout) body w
    = (Raise ZeroDivisionError, after_init backend init_method p timeout w).
Proof.
  intros Hbackend Hfault Hslot Hk. apply with_enter_raises.
  rewrite enter_global_prefix by done. apply bind_raise.
  cbn [enter _enable_local_process_group].
  rewrite (bind_ok _ _ _ None (after_init backend init_method p timeout w))
    by (unfold get_LOCAL_PROCESS_GROUP, gets; simpl; by rewrite Hslot).
  simpl bool_decide.
  rewrite (bind_ok _ _ _ tt (after_init backend init_method p timeout w)) by done.
  apply bind_raise. unfold lift, py_floordiv. by rewrite Hk.
Qed.

(** ** The worker's normal path *)

Lemma worker_run_returns main_func args kwargs backend dist_url p
    return_save_file timeout (w : World Val) r w2 :
  let k := DistributedParams.num_processes_per_machine p in
  let n := DistributedParams.world_size p / k in
  str_in (lower backend) ["nccl"; "gloo"] = true ->
  init_fault w = None ->
  LOCAL_PROCESS_GROUP w = None ->
  0 < k ->
  1 <= n ->
  call main_func args kwargs
    (after_enter backend dist_url p (default DEFAULT_TIMEOUT timeout) w) = (Ok r, w2) ->
  exists w',
    default_distributed_worker main_func args kwargs backend dist_url (PyParams p)
      return_save_file timeout w = (Ok r, w') /\
    files w'
      = (if is_None return_save_file then files w2
         else <[py_str return_save_file +:+ ".rank"
                +:+ pretty (DistributedParams.global_rank p) := r]> (files w2)) /\
    trace w'
      = trace w2
        ++ [EvDestroyProcessGroup (Some (Group (next_group w + Z.to_nat n - 1)));
            EvSetLocalProcessGroup None;
            EvDestroyProcessGroup None] /\
    LOCAL_PROCESS_GROUP w' = None.
Proof.
  intros k n Hbackend Hfault Hslot Hk Hn Hcall.
  rewrite worker_with_object by done.
  pose proof (enter_global_run backend dist_url p (default DEFAULT_TIMEOUT timeout) w
                Hbackend Hfault Hslot ltac:(fold k; lia)) as Henter.
  fold k n in Henter. rewrite loop_pg_last in Henter.
  destruct (Z_of_nat_complete n ltac:(lia)) as [m Hm].
  destruct m as [|m]; [lia|].
  assert (Hlen : length (py_range 0 n) = S m).
  { unfold py_range. rewrite length_seqZ. lia. }
  destruct (py_range 0 n) as [|i rest] eqn:Hrange; [done|].
  rewrite Hlen in Henter. rewrite <- Hrange in *.
  replace (Z.to_nat n) with (S m) by lia.
  destruct (is_None return_save_file) eqn:Hnone.
  - eexists. split.
    + erewrite with_body_returns; [|exact Henter|].
      2:{ cbn [params_of lift]. rewrite (bind_ok _ _ _ p _) by done.
          cbn [call save_return_deco]. rewrite (bind_ok _ _ _ _ _ Hcall).
          rewrite Hnone. reflexivity. }
      cbn [exit enable_dist_process_groups fst snd].
      rewrite (bind_ok _ _ _ tt _ (bind_ok _ _ _ tt _ (exit_local_run p _ w2))).
      reflexivity.
    + simpl. split_and!; try done. by rewrite <- app_assoc.
  - eexists. split.
    + erewrite with_body_returns; [|exact Henter|].
      2:{ cbn [params_of lift]. rewrite (bind_ok _ _ _ p _) by done.
          cbn [call save_return_deco]. rewrite (bind_ok _ _ _ _ _ Hcall).
          rewrite Hnone. reflexivity. }
      cbn [exit enable_dist_process_groups fst snd].
      rewrite (bind_ok _ _ _ tt _ (bind_ok _ _ _ tt _ (exit_local_run p _ _))).
      reflexivity.
    + simpl. split_and!; try done. by rewrite <- app_assoc.
Qed.

(** On a supported backend, with an empty slot and a topology of at least
    one machine, a worker whose user function returns [r] returns [r].
    Before returning it stores [r] at [<return_save_file>.rank<global_rank>]
    when a file is given, then destroys the group of the last machine,
    clears the slot and destroys the global group. *)
Theorem worker_returns_and_saves main_func args kwargs backend dist_url p
    return_save_file timeout (w : World Val) r w2 :
  let k := DistributedParams.num_processes_per_machine p in
  let n := DistributedParams.world_size p / k in
  str_in (lower backend) ["nccl"; "gloo"] = true ->
  init_fault w = None ->
  LOCAL_PROCESS_GROUP w = None ->
  0 < k ->
  1 <= n ->
  call main_func args kwargs
    (after_enter backend dist_url p (default DEFAULT_TIMEOUT timeout) w) = (Ok r, w2) ->
  exists w',
    default_distributed_worker main_func args kwargs backend dist_url (PyParams p)
      return_save_file timeout w = (Ok r, w') /\
    files w'
      = (if is_None return_save_file then files w2
         else <[py_str return_save_file +:+ ".rank"
                +:+ pretty (DistributedParams.global_rank p) := r]> (files w2)) /\
    trace w'
      = trace w2
        ++ [EvDestroyProcessGroup (Some (Group (next_group w + Z.to_nat n - 1)));
            EvSetLocalProcessGroup None;
            EvDestroyProcessGroup None] /\
    LOCAL_PROCESS_GROUP w' = None.
Proof.
  intros k n Hbackend Hfault Hslot Hk Hn Hcall.
  by apply worker_run_returns.
Qed.

(** Without usable [dist_params] ([None], or any other falsy object) the
    worker takes the parameters from the environment: it behaves as if it
    had been given what [from_environ] returns, and raises what
    [from_environ] raises, before touching anything. *)
Theorem worker_without_params_reads_environ main_func args kwargs backend dist_url
    dist_params return_save_file timeout (w : World Val) :
  truthy dist_params = false ->
  default_distributed_worker main_func args kwargs backend dist_url dist_params
    return_save_file timeout w
  = match (from_environ w).1 with
    | Ok p =>
        default_distributed_worker main_func args kwargs backend dist_url
          (PyParams p) return_save_file timeout w
    | Raise e => (Raise e, w)
    end.
Proof.
  intros Hfalsy. pose proof (from_environ_state w) as Hstate.
  destruct (from_environ w) as [[p|e] w'] eqn:Henv; simpl in Hstate; subst w'; simpl.
  - rewrite (worker_with_object _ _ _ _ _ (PyParams p)) by done.
    unfold default_distributed_worker. rewrite Hfalsy.
    rewrite (bind_ok _ _ w (PyParams p) w); [done|].
    by rewrite (bind_ok _ _ _ _ _ Henv).
  - unfold default_distributed_worker. rewrite Hfalsy.
    apply bind_raise. by apply bind_raise.
Qed.

(** ** A scope left by an exception *)

(** A body that raises inside the local scope of a process whose machine
    index is in range leaves the slot occupied; from then on every attempt
    to open a local scope in that process fails with [AssertionError], for
    any parameters, without creating a group. *)
Theorem local_scope_closed_for_good_after_raise {B C} p p'
    (body : unit -> M Val B) (body' : unit -> M Val C) (w : World Val) e w2 :
  let k := DistributedParams.num_processes_per_machine p in
  let w1 := (enter (_enable_local_process_group p) w).2 in
  LOCAL_PROCESS_GROUP w = None ->
  0 < k ->
  0 <= DistributedParams.machine_rank p < DistributedParams.world_size p / k ->
  body tt w1 = (Raise e, w2) ->
  LOCAL_PROCESS_GROUP w2 = LOCAL_PROCESS_GROUP w1 ->
  with_ (_enable_local_process_group p) body w = (Raise e, w2) /\
  with_ (_enable_local_process_group p') body' w2 = (Raise AssertionError, w2).
Proof.
  intros k w1 Hslot Hk Hmr Hbody Hsame.
  pose proof (enter_local_run p w Hslot ltac:(fold k; lia)) as Henter.
  cbv zeta in Henter. fold k in Henter.
  assert (Hheld : exists g, LOCAL_PROCESS_GROUP w1 = Some g).
  { unfold w1. rewrite Henter. cbn [snd LOCAL_PROCESS_GROUP].
    unfold py_range. rewrite Z.sub_0_r.
    generalize dependent (DistributedParams.world_size p / k). intros n Hmr _.
    destruct (Z_of_nat_complete n ltac:(lia)) as [m ->].
    rewrite loop_slot_range, bool_decide_eq_true_2 by lia. by eexists. }
  destruct Hheld as [g Hg]. split.
  - eapply with_body_raises; [exact Henter|]. unfold w1 in Hbody.
    by rewrite Henter in Hbody.
  - apply with_enter_raises. cbn [enter _enable_local_process_group].
    rewrite (bind_ok _ _ _ (Some g) w2)
      by (unfold get_LOCAL_PROCESS_GROUP, gets; by rewrite Hsame, Hg).
    reflexivity.
Qed.

(** ** More on launch *)

Lemma launch_url_bind {B} dist_url (k : string -> M Val B) (w : World Val) :
  (match dist_url with
   | Some url => ret url
   | None => now ← gets clock; ret ("file:///tmp/mcvdh_dist_file_" +:+ now)
   end ≫= k) w
  = k (launch_dist_url dist_url w) w.
Proof. by destruct dist_url. Qed.

Lemma launch_check_bind {B} backend n (k : unit -> M Val B) (w : World Val) :
  ((if String.eqb backend "NCCL"
    then devices ← gets cuda_device_count; assert (n <=? devices)
    else ret tt) ≫= k) w
  = if device_check_fails backend n w then (Raise AssertionError, w) else k tt w.
Proof.
  unfold device_check_fails. destruct (String.eqb backend "NCCL"); [|done].
  unfold_m. simpl. by destruct (n <=? cuda_device_count w).
Qed.

(** The device check comes first: with backend ["NCCL"] and more processes
    per machine than CUDA devices, [launch] raises [AssertionError] and
    does nothing else, whatever the other arguments are. *)
Theorem launch_device_check_comes_first main_func num_processes_per_machine
    num_machines machine_rank dist_url backend always_spawn launch_method timeout
    args kwargs _distributed_worker (w : World Val) :
  device_check_fails backend num_processes_per_machine w = true ->
  launch main_func num_processes_per_machine num_machines machine_rank dist_url
    backend always_spawn launch_method timeout args kwargs _distributed_worker w
  = (Raise AssertionError, w).
Proof.
  intros Hcheck. unfold launch.
  rewrite launch_url_bind, launch_check_bind. by rewrite Hcheck.
Qed.

Lemma launch_in_process_run main_func num_processes_per_machine
    num_machines machine_rank dist_url backend launch_method timeout args kwargs
    _distributed_worker (w : World Val) :
  num_machines * num_processes_per_machine <= 1 ->
  device_check_fails backend num_processes_per_machine w = false ->
  launch main_func num_processes_per_machine num_machines machine_rank dist_url
    backend false launch_method timeout args kwargs _distributed_worker w
  = call main_func args (default ∅ kwargs) w.
Proof.
  intros Hsize Hcheck. unfold launch.
  rewrite launch_url_bind, launch_check_bind, Hcheck.
  replace (1 <? num_machines * num_processes_per_machine) with false
    by (symmetry; apply Z.ltb_ge; lia).
  reflexivity.
Qed.

(** Any world size up to one, zero and negative sizes included, is run in
    the calling process when [always_spawn] is unset and the device check
    passes: [launch] is then a call of [main_func], and [launch_method] is
    never looked at. *)
Theorem launch_small_world_runs_in_process main_func num_processes_per_machine
    num_machines machine_rank dist_url backend launch_method timeout args kwargs
    _distributed_worker (w : World Val) :
  num_machines * num_processes_per_machine <= 1 ->
  device_check_fails backend num_processes_per_machine w = false ->
  launch main_func num_processes_per_machine num_machines machine_rank dist_url
    backend false launch_method timeout args kwargs _distributed_worker w
  = call main_func args (default ∅ kwargs) w.
Proof.
  intros Hsize Hcheck. by apply launch_in_process_run.
Qed.

Lemma launch_multi_branch {B} num_machines num_processes_per_machine always_spawn
    (x y : B) :
  1 < num_machines * num_processes_per_machine \/ always_spawn = true ->
  (if (1 <? num_machines * num_processes_per_machine) || always_spawn then x else y) = x.
Proof.
  intros [H| ->]; [|by rewrite orb_true_r].
  apply Z.ltb_lt in H. by rewrite H.
Qed.

Lemma range_first_block k mr :
  range_first (k * mr) (k * (mr + 1))
  = if 0 <? k then Ok (mr * k + 0) else Raise IndexError.
Proof.
  unfold range_first. replace (k * (mr + 1)) with (k * mr + k) by lia.
  destruct (Z.ltb_spec (k * mr) (k * mr + k)); destruct (Z.ltb_spec 0 k);
    try lia; [|done]. f_equal. lia.
Qed.

Lemma launch_multiprocessing_run main_func
    num_processes_per_machine num_machines machine_rank dist_url backend
    always_spawn timeout args kwargs _distributed_worker (w : World Val) w2 :
  let url := launch_dist_url dist_url w in
  let return_file := launch_return_file main_func in
  1 < num_machines * num_processes_per_machine \/ always_spawn = true ->
  device_check_fails backend num_processes_per_machine w = false ->
  startswith url "env://" = false ->
  run_spawn
    (fun local_rank =>
       _mp_spawn_helper local_rank _distributed_worker main_func args
         (default ∅ kwargs) backend (Some url) (Some return_file) timeout
         (num_machines * num_processes_per_machine) num_processes_per_machine
         machine_rank)
    num_processes_per_machine (logged (EvSpawn num_processes_per_machine) w)
    = (Ok tt, w2) ->
  launch main_func num_processes_per_machine num_machines machine_rank dist_url
    backend always_spawn "multiprocessing" timeout args kwargs _distributed_worker w
  = (if 0 <? num_processes_per_machine
     then match files w2 !! (return_file +:+ ".rank"
                             +:+ pretty (machine_rank * num_processes_per_machine + 0)) with
          | Some r => Ok r
          | None => Raise FileNotFoundError
          end
     else Raise IndexError, w2).
Proof.
  intros url return_file Hmulti Hcheck Hurl Hspawn. unfold launch.
  rewrite launch_url_bind, launch_check_bind, Hcheck.
  rewrite launch_multi_branch by done. cbn [str_in existsb String.eqb negb orb].
  simpl. fold url. rewrite Hurl. fold return_file.
  unfold mp_spawn.
  rewrite (bind_ok _ _ _ tt w2).
  2:{ by rewrite (bind_ok _ _ w tt (logged (EvSpawn num_processes_per_machine) w)). }
  rewrite range_first_block.
  destruct (0 <? num_processes_per_machine); [|done].
  rewrite (bind_ok _ _ w2 (machine_rank * num_processes_per_machine + 0) w2) by done.
  unfold torch_load. rewrite (bind_ok _ _ w2 (files w2) w2) by done.
  by destruct (files w2 !! _).
Qed.

(** The multiprocessing branch: [launch] spawns [num_processes_per_machine]
    processes running [_mp_spawn_helper] and, once they have exited, returns
    what is stored at [<return_file>.rank<r>], where [r] is the global rank
    [_mp_spawn_helper] gives local rank 0 of this machine; if no such file
    has been written it raises [FileNotFoundError].  With no process per
    machine it raises [IndexError], after the spawn call. *)
Theorem launch_multiprocessing_reads_first_local_rank main_func
    num_processes_per_machine num_machines machine_rank dist_url backend
    always_spawn timeout args kwargs _distributed_worker (w : World Val) w2 :
  let url := launch_dist_url dist_url w in
  let return_file := launch_return_file main_func in
  1 < num_machines * num_processes_per_machine \/ always_spawn = true ->
  device_check_fails backend num_processes_per_machine w = false ->
  startswith url "env://" = false ->
  run_spawn
    (fun local_rank =>
       _mp_spawn_helper local_rank _distributed_worker main_func args
         (default ∅ kwargs) backend (Some url) (Some return_file) timeout
         (num_machines * num_processes_per_machine) num_processes_per_machine
         machine_rank)
    num_processes_per_machine (logged (EvSpawn num_processes_per_machine) w)
    = (Ok tt, w2) ->
  launch main_func num_processes_per_machine num_machines machine_rank dist_url
    backend always_spawn "multiprocessing" timeout args kwargs _distributed_worker w
  = (if 0 <? num_processes_per_machine
     then match files w2 !! (return_file +:+ ".rank"
                             +:+ pretty (machine_rank * num_processes_per_machine + 0)) with
          | Some r => Ok r
          | None => Raise FileNotFoundError
          end
     else Raise IndexError, w2).
Proof.
  intros url return_file Hmulti Hcheck Hurl Hspawn.
  by apply launch_multiprocessing_run.
Qed.

(** The elastic branch: [launch] hands the elastic launcher a configuration
    with [num_machines] nodes, [num_processes_per_machine] processes per
    node, and three restarts only for more than one machine; the entry
    point is the worker with no address, no [dist_params], the launch
    timeout in the seventh position and no timeout argument.  Of the
    results it returns the entry with key
    [num_processes_per_machine * machine_rank]; a missing key is a
    [KeyError], no process per machine an [IndexError], both after the
    launcher has run. *)
Theorem launch_elastic_returns_first_local_rank main_func num_processes_per_machine
    num_machines machine_rank dist_url backend always_spawn timeout args kwargs
    _distributed_worker (w : World Val) results w2 :
  let lc := launch_config num_machines num_processes_per_machine
              (launch_dist_url dist_url w) in
  1 < num_machines * num_processes_per_machine \/ always_spawn = true ->
  device_check_fails backend num_processes_per_machine w = false ->
  run_elastic lc
    (_distributed_worker main_func args (default ∅ kwargs) backend None PyNone
       (PyTimedelta timeout) None)
    (logged (EvElasticLaunch lc) w) = (Ok results, w2) ->
  min_nodes lc = num_machines /\
  max_nodes lc = num_machines /\
  nproc_per_node lc = num_processes_per_machine /\
  (max_restarts lc = 0 <-> num_machines <= 1) /\
  launch main_func num_processes_per_machine num_machines machine_rank dist_url
    backend always_spawn "elastic" timeout args kwargs _distributed_worker w
  = (if 0 <? num_processes_per_machine
     then match results !! (num_processes_per_machine * machine_rank) with
          | Some r => Ok r
          | None => Raise KeyError
          end
     else Raise IndexError, w2).
Proof.
  intros lc Hmulti Hcheck Hrun. split_and!; try done.
  { unfold lc, launch_config. simpl.
    destruct (Z.ltb_spec 1 num_machines); split; intros; try done; lia. }
  unfold launch.
  rewrite launch_url_bind, launch_check_bind, Hcheck.
  rewrite launch_multi_branch by done. cbn [str_in existsb String.eqb negb orb].
  simpl. fold (launch_config num_machines num_processes_per_machine
                 (launch_dist_url dist_url w)). fold lc.
  unfold pet_elastic_launch.
  rewrite (bind_ok _ _ _ results w2).
  2:{ by rewrite (bind_ok _ _ w tt (logged (EvElasticLaunch lc) w)). }
  rewrite range_first_block.
  destruct (0 <? num_processes_per_machine); [|done].
  rewrite (bind_ok _ _ w2 (machine_rank * num_processes_per_machine + 0) w2) by done.
  replace (machine_rank * num_processes_per_machine + 0)
    with (num_processes_per_machine * machine_rank) by lia.
  by destruct (results !! _).
Qed.

(** The [env://] branch with the default worker: the worker receives the
    name of the return file in the position of [dist_params], so, on a
    supported backend, [launch] raises [AttributeError] before any group is
    created and without calling [main_func]. *)
Theorem launch_env_url_default_worker_fails main_func num_processes_per_machine
    num_machines machine_rank dist_url backend always_spawn timeout args kwargs
    (w : World Val) :
  1 < num_machines * num_processes_per_machine \/ always_spawn = true ->
  device_check_fails backend num_processes_per_machine w = false ->
  startswith (launch_dist_url dist_url w) "env://" = true ->
  str_in (lower backend) ["nccl"; "gloo"] = true ->
  launch_return_file main_func <> "" ->
  launch main_func num_processes_per_machine num_machines machine_rank dist_url
    backend always_spawn "multiprocessing" timeout args kwargs
    default_distributed_worker w
  = (Raise AttributeError, w).
Proof.
  intros Hmulti Hcheck Hurl Hbackend Hname. unfold launch.
  rewrite launch_url_bind, launch_check_bind, Hcheck.
  rewrite launch_multi_branch by done. cbn [str_in existsb String.eqb negb orb].
  simpl. rewrite Hurl. fold (launch_return_file main_func).
  apply worker_rejects_foreign_dist_params_aux; try done.
  simpl. apply negb_true_iff. by apply String.eqb_neq.
Qed.

(** ** Result files of different ranks *)

Lemma rank_file_inj (location : string) (rank rank' : Z) :
  location +:+ ".rank" +:+ pretty rank = location +:+ ".rank" +:+ pretty rank' ->
  rank = rank'.
Proof.
  intros H. apply (inj (String.app location)) in H.
  apply (inj (String.app ".rank")) in H. by apply (inj pretty) in H.
Qed.

(** Workers of different ranks do not write over each other: wrapping a
    function for [rank] leaves the file of every other rank at the same
    location as the function left it. *)
Theorem save_return_deco_keeps_other_ranks func (location : string) rank rank'
    args kwargs (w : World Val) r w1 :
  call func args kwargs w = (Ok r, w1) ->
  rank' <> rank ->
  files (call (save_return_deco (PyStr location) rank func) args kwargs w).2
    !! (location +:+ ".rank" +:+ pretty rank')
  = files w1 !! (location +:+ ".rank" +:+ pretty rank').
Proof.
  intros Hcall Hne. cbn [call save_return_deco is_None negb py_str].
  rewrite (bind_ok _ _ _ _ _ Hcall). unfold_m. simpl.
  apply lookup_insert_ne. intros Heq. by apply rank_file_inj in Heq.
Qed.

(** The worker [_mp_spawn_helper] starts for local rank 0, run with the
    default worker on a sound topology, stores the user function's value
    in the very file [launch] reads afterwards:
    [<return_file>.rank<machine_rank * num_processes_per_machine + 0>]. *)
Theorem spawned_first_worker_writes_the_file_launch_reads main_func args kwargs
    backend dist_url (return_file : string) timeout world_size
    num_processes_per_machine machine_rank (w : World Val) r w2 :
  let p := DistributedParams.Make 0 (machine_rank * num_processes_per_machine + 0)
             machine_rank num_processes_per_machine world_size in
  str_in (lower backend) ["nccl"; "gloo"] = true ->
  init_fault w = None ->
  LOCAL_PROCESS_GROUP w = None ->
  0 < num_processes_per_machine ->
  1 <= world_size / num_processes_per_machine ->
  call main_func args kwargs (after_enter backend dist_url p timeout w) = (Ok r, w2) ->
  exists w',
    _mp_spawn_helper 0 default_distributed_worker main_func args kwargs backend
      dist_url (Some return_file) timeout world_size num_processes_per_machine
      machine_rank w = (Ok r, w') /\
    torch_load (return_file +:+ ".rank"
                +:+ pretty (machine_rank * num_processes_per_machine + 0)) w'
      = (Ok r, w').
Proof.
  intros p Hbackend Hfault Hslot Hk Hn Hcall.
  destruct (worker_run_returns main_func args kwargs backend dist_url p
              (PyStr return_file) (Some timeout) w r w2)
    as (w' & Hrun & Hfiles & _); try done.
  exists w'. split.
  - unfold _mp_spawn_helper.
    assert (Hinit : DistributedParams.init 0 (machine_rank * num_processes_per_machine + 0)
                      machine_rank num_processes_per_machine world_size = Ok p).
    { unfold DistributedParams.init, DistributedParams.validate. simpl.
      by rewrite Z.eqb_refl. }
    rewrite Hinit. exact Hrun.
  - unfold torch_load. rewrite (bind_ok _ _ w' (files w') w') by done.
    rewrite Hfiles. cbn [is_None py_str DistributedParams.global_rank p].
    by rewrite lookup_insert_eq.
Qed.

(** ** What the elastic entry point does with the launch timeout *)

Lemma worker_from_environ_ok main_func args kwargs backend dist_url dist_params
    return_save_file timeout (w : World Val) p :
  truthy dist_params = false ->
  from_environ w = (Ok p, w) ->
  default_distributed_worker main_func args kwargs backend dist_url dist_params
    return_save_file timeout w
  = default_distributed_worker main_func args kwargs backend dist_url (PyParams p)
      return_save_file timeout w.
Proof.
  intros Hfalsy Henv.
  rewrite (worker_with_object _ _ _ _ _ (PyParams p)) by done.
  unfold default_distributed_worker. rewrite Hfalsy.
  rewrite (bind_ok _ _ w (PyParams p) w); [done|].
  by rewrite (bind_ok _ _ _ _ _ Henv).
Qed.

(** The entry point [launch] hands the elastic launcher passes the launch
    timeout in the position of [return_save_file] and no timeout.  Run by
    the default worker in a sound environment, it therefore initialises
    the global group with [DEFAULT_TIMEOUT], whatever timeout [launch] was
    given, and stores the user function's value in a file named after the
    text of that timeout, [<str(timeout)>.rank<global_rank>]. *)
Theorem elastic_entry_point_saves_under_timeout_name main_func args kwargs backend
    timeout (w : World Val) p r w2 :
  let k := DistributedParams.num_processes_per_machine p in
  from_environ w = (Ok p, w) ->
  str_in (lower backend) ["nccl"; "gloo"] = true ->
  init_fault w = None ->
  LOCAL_PROCESS_GROUP w = None ->
  0 < k ->
  1 <= DistributedParams.world_size p / k ->
  call main_func args kwargs (after_enter backend None p DEFAULT_TIMEOUT w)
    = (Ok r, w2) ->
  exists w',
    default_distributed_worker main_func args kwargs backend None PyNone
      (PyTimedelta timeout) None w = (Ok r, w') /\
    files w'
      = <[str_timedelta timeout +:+ ".rank"
          +:+ pretty (DistributedParams.global_rank p) := r]> (files w2).
Proof.
  intros k Henv Hbackend Hfault Hslot Hk Hn Hcall.
  rewrite (worker_from_environ_ok _ _ _ _ _ PyNone _ _ w p) by done.
  destruct (worker_run_returns main_func args kwargs backend None p
              (PyTimedelta timeout) None w r w2)
    as (w' & Hrun & Hfiles & _); try done.
  by exists w'.
Qed.

End Properties.

(** ** launch_deco *)

Section LaunchDecoProperties.

Context {Val : Type} {runtime : Runtime Val}.
Variable PicklableWrapper : Callable Val -> Callable Val.
Variable PicklableWrapper_self : Val -> Val.



End LaunchDecoProperties.


(** * The properties on concrete runs *)

(** C1 does not hold as the specification words it: the user function
    raises, the worker ends with its exception, and neither destroy call
    has been issued nor the slot cleared. *)
Lemma worker_teardown_on_raise_counterexample :
  let r := default_distributed_worker failing [] ∅ "gloo" None
             (PyParams single_params) PyNone None fresh_process in
  r.1 = Raise (UserError 0) /\
  destroy_calls (trace r.2) = [] /\
  LOCAL_PROCESS_GROUP r.2 = Some (Group 0) /\
  ~ (exists g, destroy_calls (trace r.2) = [Some g; None] /\
               LOCAL_PROCESS_GROUP r.2 = None).
Proof.
  vm_compute. split_and!; try reflexivity.
  intros (g & H & _). discriminate H.
Qed.

Lemma worker_skips_teardown_witness :
  default_distributed_worker failing [] ∅ "gloo" None
    (PyParams single_params) PyNone None fresh_process
  = (Raise (UserError 0),
     (enter (enable_dist_process_groups "gloo" None (PyParams single_params)
               DEFAULT_TIMEOUT) fresh_process).2).
Proof.
  eapply (worker_skips_teardown_when_main_func_raises failing [] ∅ "gloo" None
            single_params PyNone None fresh_process
            (single_params, Some (Group 0))).
  - vm_compute. reflexivity.
  - reflexivity.
Defined.

Lemma init_raises_iff_witness :
  exists self,
    DistributedParams.init 1 3 1 2 6 = Ok self /\
    DistributedParams.global_rank self = 3.
Proof.
  destruct (proj2 (init_raises_iff_ranks_inconsistent 1 3 1 2 6))
    as (self & Hinit & _ & Hglobal & _).
  - reflexivity.
  - exists self. split; [exact Hinit | exact Hglobal].
Defined.

Lemma enter_local_scope_creates_every_partition_witness :
  exists (w' : World Z) evs,
    trace w' = trace fresh_process ++ evs ++ [EvSynchronize] /\
    new_group_calls evs = [[0; 1]; [2; 3]; [4; 5]] /\
    concat (new_group_calls evs) = [0; 1; 2; 3; 4; 5] /\
    LOCAL_PROCESS_GROUP w' = new_group_handles evs !! 1%nat.
Proof.
  destruct (enter_local_scope_creates_every_partition middle_params fresh_process)
    as (pg & w' & evs & _ & Htrace & _ & Hcalls & Hcover & Hslot & _).
  - reflexivity.
  - simpl. lia.
  - simpl. lia.
  - exists 3. reflexivity.
  - exists w', evs. split; [exact Htrace|]. split; [exact Hcalls|].
    split; [exact Hcover | exact Hslot].
Defined.

Lemma enter_local_scope_rejects_occupied_slot_witness :
  enter (_enable_local_process_group middle_params) busy_process
  = (Raise AssertionError, busy_process).
Proof.
  apply (enter_local_scope_rejects_occupied_slot middle_params busy_process (Group 7)).
  reflexivity.
Defined.

Lemma exit_local_scope_destroys_last_partition_group_witness :
  exists g_last g (w1 : World Z),
    enter (_enable_local_process_group middle_params) fresh_process
      = (Ok (Some g_last, tt), w1) /\
    LOCAL_PROCESS_GROUP w1 = Some g /\
    g <> g_last /\
    exists w3,
      exit (_enable_local_process_group middle_params) (Some g_last) w1 = (Ok tt, w3) /\
      trace w3 = trace w1 ++ [EvDestroyProcessGroup (Some g_last);
                              EvSetLocalProcessGroup None].
Proof.
  destruct (exit_local_scope_destroys_last_partition_group middle_params fresh_process)
    as (g_last & w1 & evs & Henter & _ & _ & _ & Hexit & _ & Hother).
  - reflexivity.
  - simpl. lia.
  - vm_compute. discriminate.
  - destruct Hother as (g & Hslot & _ & Hne);
      [vm_compute; split; [discriminate | reflexivity]|].
    destruct (Hexit w1) as (w3 & Hrun & Htrace & _).
    exists g_last, g, w1. split; [exact Henter|]. split; [exact Hslot|].
    split; [exact Hne|]. exists w3. split; [exact Hrun | exact Htrace].
Defined.

Lemma teardown_destroys_local_before_global_witness :
  exists (w2 : World Z) g,
    trace (with_ (enable_dist_process_groups "gloo" None (PyParams middle_params) 60)
             (fun _ => ret 5) fresh_process).2
    = trace w2 ++ [EvDestroyProcessGroup (Some g);
                   EvSetLocalProcessGroup None;
                   EvDestroyProcessGroup None].
Proof.
  destruct (teardown_destroys_local_before_global "gloo" None (PyParams middle_params)
              60 (fun _ => ret 5) fresh_process 5
              (with_ (enable_dist_process_groups "gloo" None (PyParams middle_params) 60)
                 (fun _ => ret 5) fresh_process).2)
    as (frame & w1 & w2 & g & w3 & _ & _ & _ & _ & _ & _ & Htrace & _).
  - vm_compute. reflexivity.
  - exists w2, g. exact Htrace.
Defined.

Lemma mp_spawn_helper_builds_valid_params_witness :
  DistributedParams.validate middle_params = Ok tt /\
  _mp_spawn_helper 1 default_distributed_worker sum_args [1; 2] ∅ "gloo"
    (Some "file:///tmp/rendezvous") (Some "/tmp/out") 60 6 2 1 fresh_process
  = default_distributed_worker sum_args [1; 2] ∅ "gloo"
      (Some "file:///tmp/rendezvous") (PyParams middle_params) (PyStr "/tmp/out")
      (Some 60) fresh_process.
Proof.
  destruct (mp_spawn_helper_builds_valid_params 1 default_distributed_worker sum_args
              [1; 2] ∅ "gloo" (Some "file:///tmp/rendezvous") (Some "/tmp/out")
              60 6 2 1 fresh_process)
    as (_ & Hvalid & _ & Hrun).
  - lia.
  - split; [exact Hvalid | exact Hrun].
Defined.

Lemma save_return_deco_round_trip_witness :
  exists w2,
    call (save_return_deco (PyStr "/tmp/out") 3 sum_args) [1; 2] ∅ fresh_process
      = (Ok 3, w2) /\
    torch_load "/tmp/out.rank3" w2 = (Ok 3, w2).
Proof.
  destruct (save_return_deco_round_trip sum_args (Some "/tmp/out") 3 [1; 2] ∅
              fresh_process 3 fresh_process)
    as (w2 & Hcall & _ & Hload & _).
  - reflexivity.
  - exists w2. split; [exact Hcall | exact Hload].
Defined.

(** C6 does not hold as the specification words it: with the default
    backend ["NCCL"] on a machine without CUDA devices, a single-process
    [launch] fails the device check and never calls the user function,
    which would have returned 3. *)
Lemma launch_single_process_counterexample :
  1 * 1 = 1 /\
  call sum_args [1; 2] ∅ fresh_process = (Ok 3, fresh_process) /\
  launch sum_args 1 1 0 None "NCCL" false "multiprocessing" DEFAULT_TIMEOUT
    [1; 2] None default_distributed_worker fresh_process
  = (Raise AssertionError, fresh_process).
Proof. split_and!; reflexivity. Qed.

Lemma launch_single_process_calls_main_func_witness :
  launch sum_args 1 1 0 None "NCCL" false "multiprocessing" DEFAULT_TIMEOUT
    [1; 2] None default_distributed_worker one_device_process
  = call sum_args [1; 2] ∅ one_device_process.
Proof.
  apply (launch_single_process_calls_main_func sum_args 1 1 0 None "NCCL"
           "multiprocessing" DEFAULT_TIMEOUT [1; 2] None default_distributed_worker
           one_device_process).
  - reflexivity.
  - intros _. simpl. lia.
Defined.

(** C10 does not hold as the specification words it: a single-process
    [launch] without [always_spawn] never looks at [launch_method]; with
    an unknown method it calls the user function and returns its value. *)
Lemma launch_unknown_method_counterexample :
  str_in "bogus" ["multiprocessing"; "elastic"] = false /\
  launch sum_args 1 1 0 None "GLOO" false "bogus" DEFAULT_TIMEOUT
    [1; 2] None default_distributed_worker fresh_process
  = (Ok 3, fresh_process).
Proof. split; reflexivity. Qed.

Lemma launch_rejects_unknown_method_witness :
  launch sum_args 1 1 0 None "GLOO" true "bogus" DEFAULT_TIMEOUT
    [1; 2] None default_distributed_worker fresh_process
  = (Raise ValueError, fresh_process).
Proof.
  apply (launch_rejects_unknown_method sum_args 1 1 0 None "GLOO" true "bogus"
           DEFAULT_TIMEOUT [1; 2] None default_distributed_worker fresh_process).
  - right. reflexivity.
  - discriminate.
  - discriminate.
Defined.

(** ** Further runs *)

Lemma from_environ_defaults_witness :
  from_environ fresh_process = (Ok single_params, fresh_process).
Proof.
  apply (from_environ_defaults fresh_process).
  intros key _. reflexivity.
Defined.

Lemma from_environ_rejects_unparsable_witness :
  from_environ misconfigured_process = (Raise ValueError, misconfigured_process).
Proof.
  apply (from_environ_rejects_unparsable misconfigured_process "RANK" "abc").
  - unfold rank_variables. set_solver.
  - reflexivity.
  - reflexivity.
Defined.

Lemma enter_global_scope_trace_witness :
  exists pg (w1 : World Z) evs,
    enter (enable_dist_process_groups "NCCL" None (PyParams middle_params) 60)
      one_device_process = (Ok ((middle_params, pg), tt), w1) /\
    new_group_calls evs = [[0; 1]; [2; 3]; [4; 5]] /\
    trace w1 = EvInitProcessGroup "NCCL" None 6 3 60 :: EvCudaSetDevice 1
               :: EvSynchronize :: evs ++ [EvSynchronize].
Proof.
  destruct (enter_global_scope_trace "NCCL" None middle_params 60 one_device_process)
    as (pg & w1 & evs & Henter & Htrace & Hcalls & _).
  - reflexivity.
  - reflexivity.
  - reflexivity.
  - simpl. lia.
  - exists pg, w1, evs. split; [exact Henter|]. split; [exact Hcalls | exact Htrace].
Defined.

Lemma worker_rejects_unknown_backend_witness :
  default_distributed_worker sum_args [1; 2] ∅ "mpi" None (PyParams single_params)
    PyNone None fresh_process
  = (Raise AssertionError, fresh_process).
Proof.
  apply (worker_rejects_unknown_backend sum_args [1; 2] ∅ "mpi" None
           (PyParams single_params) PyNone None fresh_process).
  - reflexivity.
  - reflexivity.
Defined.

Lemma worker_rejects_foreign_dist_params_witness :
  default_distributed_worker sum_args [1; 2] ∅ "gloo" None (PyStr "/tmp/out.pth")
    (PyTimedelta 60) None fresh_process
  = (Raise AttributeError, fresh_process).
Proof.
  apply (worker_rejects_foreign_dist_params sum_args [1; 2] ∅ "gloo" None
           (PyStr "/tmp/out.pth") (PyTimedelta 60) None fresh_process).
  - reflexivity.
  - intros p. discriminate.
  - reflexivity.
Defined.

Lemma worker_init_process_group_fails_witness :
  default_distributed_worker sum_args [1; 2] ∅ "gloo" None (PyParams single_params)
    PyNone None faulty_process
  = (Raise (UserError 9),
     logged (EvInitProcessGroup "gloo" None 1 0 DEFAULT_TIMEOUT) faulty_process).
Proof.
  apply (worker_init_process_group_fails sum_args [1; 2] ∅ "gloo" None single_params
           PyNone None faulty_process (UserError 9)).
  - reflexivity.
  - reflexivity.
Defined.

Lemma scope_without_machines_raises_witness :
  exists w2 : World Z,
    with_ (enable_dist_process_groups "gloo" None (PyParams undersized_params) 60)
      (fun _ => ret 5) fresh_process
    = (Raise UnboundLocalError, w2) /\
    destroy_calls (trace w2) = [].
Proof.
  eexists. split.
  - eapply (scope_without_machines_raises "gloo" None undersized_params 60
              (fun _ => ret 5) fresh_process 5).
    + reflexivity.
    + reflexivity.
    + reflexivity.
    + simpl. lia.
    + vm_compute. discriminate.
    + reflexivity.
  - reflexivity.
Defined.

Lemma scope_zero_processes_per_machine_witness :
  with_ (enable_dist_process_groups "gloo" None (PyParams empty_machine_params) 60)
    (fun _ => ret 5) fresh_process
  = (Raise ZeroDivisionError,
     after_init "gloo" None empty_machine_params 60 fresh_process).
Proof.
  apply (scope_zero_processes_per_machine "gloo" None empty_machine_params 60
           (fun _ => ret 5) fresh_process); reflexivity.
Defined.

Lemma worker_returns_and_saves_witness :
  exists w' : World Z,
    default_distributed_worker sum_args [1; 2] ∅ "gloo" None (PyParams middle_params)
      (PyStr "/tmp/out") None fresh_process = (Ok 3, w') /\
    files w' !! "/tmp/out.rank3" = Some 3 /\
    destroy_calls (trace w') = [Some (Group 2); None].
Proof.
  destruct (worker_returns_and_saves sum_args [1; 2] ∅ "gloo" None middle_params
              (PyStr "/tmp/out") None fresh_process 3
              (after_enter "gloo" None middle_params DEFAULT_TIMEOUT fresh_process))
    as (w' & Hrun & Hfiles & Htrace & _).
  - reflexivity.
  - reflexivity.
  - reflexivity.
  - simpl. lia.
  - vm_compute. discriminate.
  - reflexivity.
  - exists w'. split; [exact Hrun|]. split.
    + rewrite Hfiles. reflexivity.
    + rewrite Htrace. reflexivity.
Defined.

Lemma worker_without_params_reads_environ_witness :
  default_distributed_worker sum_args [1; 2] ∅ "gloo" None PyNone PyNone None
    fresh_process
  = default_distributed_worker sum_args [1; 2] ∅ "gloo" None (PyParams single_params)
      PyNone None fresh_process.
Proof.
  rewrite (worker_without_params_reads_environ sum_args [1; 2] ∅ "gloo" None PyNone
             PyNone None fresh_process) by reflexivity.
  vm_compute. reflexivity.
Defined.

Lemma local_scope_closed_for_good_after_raise_witness :
  exists w2 : World Z,
    with_ (_enable_local_process_group middle_params)
      (fun _ => raise (UserError 0) : M Z Z) fresh_process
    = (Raise (UserError 0), w2) /\
    with_ (_enable_local_process_group single_params) (fun _ => ret 5) w2
    = (Raise AssertionError, w2).
Proof.
  eexists.
  eapply (local_scope_closed_for_good_after_raise middle_params single_params
            (fun _ => raise (UserError 0) : M Z Z) (fun _ => ret 5) fresh_process
            (UserError 0)).
  - reflexivity.
  - simpl. lia.
  - vm_compute. split; [discriminate | reflexivity].
  - reflexivity.
  - reflexivity.
Defined.

Lemma launch_device_check_comes_first_witness :
  launch sum_args 1 2 0 None "NCCL" true "elastic" DEFAULT_TIMEOUT [1; 2] None
    default_distributed_worker fresh_process
  = (Raise AssertionError, fresh_process).
Proof.
  apply (launch_device_check_comes_first sum_args 1 2 0 None "NCCL" true "elastic"
           DEFAULT_TIMEOUT [1; 2] None default_distributed_worker fresh_process).
  reflexivity.
Defined.

Lemma launch_small_world_runs_in_process_witness :
  launch sum_args 4 0 0 None "GLOO" false "bogus" DEFAULT_TIMEOUT [1; 2] None
    default_distributed_worker fresh_process
  = call sum_args [1; 2] ∅ fresh_process.
Proof.
  apply (launch_small_world_runs_in_process sum_args 4 0 0 None "GLOO" "bogus"
           DEFAULT_TIMEOUT [1; 2] None default_distributed_worker fresh_process).
  - simpl. lia.
  - reflexivity.
Defined.

Lemma launch_multiprocessing_reads_first_local_rank_witness :
  exists w2 : World Z,
    @launch Z first_worker_runtime sum_args 2 1 0 None "gloo" false "multiprocessing"
      60 [1; 2] None (@default_distributed_worker Z first_worker_runtime)
      fresh_process
    = (Ok 3, w2).
Proof.
  eexists. etransitivity.
  - eapply (@launch_multiprocessing_reads_first_local_rank Z first_worker_runtime
              sum_args 2 1 0 None "gloo" false 60 [1; 2] None
              (@default_distributed_worker Z first_worker_runtime) fresh_process).
    + left. simpl. lia.
    + reflexivity.
    + reflexivity.
    + vm_compute. reflexivity.
  - vm_compute. reflexivity.
Defined.

Lemma launch_elastic_returns_first_local_rank_witness :
  exists w2 : World Z,
    @launch Z first_worker_runtime sum_args 2 1 0 None "gloo" false "elastic"
      60 [1; 2] None (@default_distributed_worker Z first_worker_runtime)
      fresh_process
    = (Ok 7, w2).
Proof.
  eexists. etransitivity.
  - eapply (@launch_elastic_returns_first_local_rank Z first_worker_runtime
              sum_args 2 1 0 None "gloo" false 60 [1; 2] None
              (@default_distributed_worker Z first_worker_runtime) fresh_process).
    + left. simpl. lia.
    + reflexivity.
    + vm_compute. reflexivity.
  - vm_compute. reflexivity.
Defined.

Lemma launch_env_url_default_worker_fails_witness :
  launch sum_args 2 1 0 (Some "env://") "gloo" false "multiprocessing" 60 [1; 2] None
    default_distributed_worker fresh_process
  = (Raise AttributeError, fresh_process).
Proof.
  apply (launch_env_url_default_worker_fails sum_args 2 1 0 (Some "env://") "gloo"
           false 60 [1; 2] None fresh_process).
  - left. simpl. lia.
  - reflexivity.
  - reflexivity.
  - reflexivity.
  - discriminate.
Defined.

Lemma save_return_deco_keeps_other_ranks_witness :
  files (call (save_return_deco (PyStr "/tmp/out") 3 sum_args) [1; 2] ∅
           fresh_process).2 !! "/tmp/out.rank4"
  = files fresh_process !! "/tmp/out.rank4".
Proof.
  apply (save_return_deco_keeps_other_ranks sum_args "/tmp/out" 3 4 [1; 2] ∅
           fresh_process 3 fresh_process).
  - reflexivity.
  - lia.
Defined.

Lemma spawned_first_worker_writes_the_file_launch_reads_witness :
  exists w' : World Z,
    _mp_spawn_helper 0 default_distributed_worker sum_args [1; 2] ∅ "gloo"
      (Some "file:///tmp/rendezvous") (Some "/tmp/out") 60 6 2 1 fresh_process
      = (Ok 3, w') /\
    torch_load "/tmp/out.rank2" w' = (Ok 3, w').
Proof.
  eapply (spawned_first_worker_writes_the_file_launch_reads sum_args [1; 2] ∅ "gloo"
            (Some "file:///tmp/rendezvous") "/tmp/out" 60 6 2 1 fresh_process 3).
  - reflexivity.
  - reflexivity.
  - reflexivity.
  - lia.
  - vm_compute. discriminate.
  - reflexivity.
Defined.



Lemma elastic_entry_point_saves_under_timeout_name_witness :
  exists w' : World Z,
    default_distributed_worker sum_args [1; 2] ∅ "gloo" None PyNone (PyTimedelta 60)
      None fresh_process = (Ok 3, w') /\
    files w' !! "0:30:00.rank0" = Some 3.
Proof.
  destruct (elastic_entry_point_saves_under_timeout_name sum_args [1; 2] ∅ "gloo" 60
              fresh_process single_params 3
              (after_enter "gloo" None single_params DEFAULT_TIMEOUT fresh_process))
    as (w' & Hrun & Hfiles).
  - reflexivity.
  - reflexivity.
  - reflexivity.
  - reflexivity.
  - simpl. lia.
  - vm_compute. discriminate.
  - reflexivity.
  - exists w'. split; [exact Hrun|]. rewrite Hfiles. reflexivity.
Defined.
